(** * RoomConnectionManager: signaling and screen-share correlation

    A shallow embedding of
    [electron-src/src/renderer/pages/Rooms/RoomConnectionManager.ts].

    The class is a single-threaded event-driven object.  Its fields become a
    record, each method and handler becomes a computation in a small
    state/exception/trace monad, and everything the class does to the outside
    world (envelopes written to the WebSocket, application callbacks, console
    output, calls on the RTCPeerConnection) is recorded, in program order, in
    an effect trace.

    Browser objects that the class only holds by reference (transceivers)
    live in a small heap so that aliasing between [pc.getTransceivers()] and
    the two [screenShare*Transceiver] fields is kept.  The results of the
    awaited browser calls (which may resolve or reject) are supplied by an
    oracle record, one per handler invocation; a handler is run to completion
    with those results. *)

From Stdlib Require Import String Ascii List Bool Arith Lia.
From stdpp Require Import base option list strings gmap.
Import ListNotations.

Local Open Scope string_scope.
Local Open Scope list_scope.

(** ** Browser-side data *)

Record MediaStreamTrack := {
  trackId : nat;
  (* [None]: the property is absent from the object *)
  contentHint : option string
}.

Record MediaStream := {
  stream_id : string;
  getVideoTracks : list MediaStreamTrack;
  getAudioTracks : list MediaStreamTrack
}.

Inductive ReadyState := CONNECTING | OPEN | CLOSING | CLOSED.

Inductive Direction := sendrecv | sendonly | recvonly | inactive.

Inductive ConnectionState :=
  cs_new | cs_connecting | cs_connected | cs_disconnected | cs_failed | cs_closed.

Inductive CallStatus := st_active | st_inactive.

Inductive Exn := TypeError | SyntaxError | RtcError.

#[global] Instance ReadyState_eq_dec : EqDecision ReadyState.
Proof. solve_decision. Defined.
#[global] Instance Direction_eq_dec : EqDecision Direction.
Proof. solve_decision. Defined.

(** The value installed in [ws.onmessage]. *)
Inductive MessageHandler :=
  | LogWebrtcInactive   (* set by initSignalingConnection *)
  | LogInactive         (* set by disconnect *)
  | HandleWsMessage.    (* set by connect *)

Record WebSocket := {
  readyState : ReadyState;
  onmessage : MessageHandler;
  onclose : bool              (* false: the handler has been set to null *)
}.

Record RTCRtpTransceiver := {
  direction : Direction;
  senderTrack : option MediaStreamTrack;
  degradationPreference : option string
}.

(** A transceiver reference is an index into the heap of transceivers. *)
Definition TransceiverRef := nat.

Record RTCPeerConnection := {
  onicecandidate : bool;
  onconnectionstatechange : bool;
  ontrack : bool;
  onnegotiationneeded : bool;
  getTransceivers : list TransceiverRef;
  localDescription : option (string * string)   (* type, sdp *)
}.

(** ** Wire format *)

(** Every payload the class sends is a flat object with string fields. *)
Definition JsonObject := list (string * string).

(** [SignalMessage] as built by [sendMessage]. *)
Record SignalMessage := {
  type : string;
  msg_clientId : string;
  msg_roomId : string;
  payload : JsonObject
}.

(** Modelled from the spec: the payload types of [@/renderer/types/roomTypes]
    ([SdpOffer], [SdpAnswer], [IceCandidate], [PeerExit], [PeerScreenShare],
    [PeerScreenShareStop]) are not part of the sources; the constructors
    below carry the fields that the wire-envelope section lists and that
    [handleWsMessage] reads.  [InOther] is any other [type]. *)
Inductive Inbound :=
  | InOffer (sdp : string)
  | InAnswer (sdp : string)
  | InCandidate (candidate : string)
  | InPeerExit (peerId peerName : string)
  | InPeerScreenShare (streamId peerId : string)
  | InPeerScreenShareStop (peerId : string)
  | InOther (type : string).

(** ** Effects *)

Inductive Callback :=
  | onStatusChange (status : CallStatus)
  | onRemoteStream (stream : MediaStream)
  | onRemoteStreamStopped
  | onPeerExit (peerId peerName : string)
  | onPeerScreenShare (peerId : string) (stream : MediaStream)
  | onPeerScreenShareStopped (peerId : string)
  | onError (message : string).

Inductive Level := log | warn | error.

Inductive PcCall :=
  | pc_new
  | pc_addTrack (t : MediaStreamTrack)
  | pc_setRemoteDescription (type sdp : string)
  | pc_createAnswer
  | pc_createOffer
  | pc_setLocalDescription (type sdp : string)
  | pc_addIceCandidate (candidate : string)
  | pc_set_onnegotiationneeded (installed : bool)
  | pc_close
  | sender_replaceTrack (tr : TransceiverRef) (t : MediaStreamTrack)
  | sender_setParameters (tr : TransceiverRef).

Inductive Effect :=
  | Send (m : SignalMessage)          (* ws.send(JSON.stringify m) *)
  | Call (c : Callback)               (* this.callbacks.c *)
  | Console (l : Level) (text : string)
  | Pc (c : PcCall)
  | WsNew
  | WsClose
  | Uncaught (e : Exn).               (* an exception that left the handler *)

(** ** The manager *)

Record Manager := {
  ws : option WebSocket;
  pc : option RTCPeerConnection;
  roomId : string;
  clientId : string;
  userName : string;
  screenShareVideoTransceiver : option TransceiverRef;
  screenShareAudioTransceiver : option TransceiverRef;
  exited : bool;
  pendingStreams : gmap string MediaStream;
  pendingScreenShareIds : gmap string string;
  (* transceiver objects, addressed by reference *)
  heap : list RTCRtpTransceiver
}.

Definition set_ws (v : option WebSocket) (m : Manager) : Manager :=
  {| ws := v; pc := pc m; roomId := roomId m; clientId := clientId m;
     userName := userName m;
     screenShareVideoTransceiver := screenShareVideoTransceiver m;
     screenShareAudioTransceiver := screenShareAudioTransceiver m;
     exited := exited m; pendingStreams := pendingStreams m;
     pendingScreenShareIds := pendingScreenShareIds m; heap := heap m |}.

Definition set_pc (v : option RTCPeerConnection) (m : Manager) : Manager :=
  {| ws := ws m; pc := v; roomId := roomId m; clientId := clientId m;
     userName := userName m;
     screenShareVideoTransceiver := screenShareVideoTransceiver m;
     screenShareAudioTransceiver := screenShareAudioTransceiver m;
     exited := exited m; pendingStreams := pendingStreams m;
     pendingScreenShareIds := pendingScreenShareIds m; heap := heap m |}.

Definition set_screenShareVideoTransceiver (v : option TransceiverRef)
    (m : Manager) : Manager :=
  {| ws := ws m; pc := pc m; roomId := roomId m; clientId := clientId m;
     userName := userName m;
     screenShareVideoTransceiver := v;
     screenShareAudioTransceiver := screenShareAudioTransceiver m;
     exited := exited m; pendingStreams := pendingStreams m;
     pendingScreenShareIds := pendingScreenShareIds m; heap := heap m |}.

Definition set_screenShareAudioTransceiver (v : option TransceiverRef)
    (m : Manager) : Manager :=
  {| ws := ws m; pc := pc m; roomId := roomId m; clientId := clientId m;
     userName := userName m;
     screenShareVideoTransceiver := screenShareVideoTransceiver m;
     screenShareAudioTransceiver := v;
     exited := exited m; pendingStreams := pendingStreams m;
     pendingScreenShareIds := pendingScreenShareIds m; heap := heap m |}.

Definition set_exited (v : bool) (m : Manager) : Manager :=
  {| ws := ws m; pc := pc m; roomId := roomId m; clientId := clientId m;
     userName := userName m;
     screenShareVideoTransceiver := screenShareVideoTransceiver m;
     screenShareAudioTransceiver := screenShareAudioTransceiver m;
     exited := v; pendingStreams := pendingStreams m;
     pendingScreenShareIds := pendingScreenShareIds m; heap := heap m |}.

Definition set_pendingStreams (v : gmap string MediaStream)
    (m : Manager) : Manager :=
  {| ws := ws m; pc := pc m; roomId := roomId m; clientId := clientId m;
     userName := userName m;
     screenShareVideoTransceiver := screenShareVideoTransceiver m;
     screenShareAudioTransceiver := screenShareAudioTransceiver m;
     exited := exited m; pendingStreams := v;
     pendingScreenShareIds := pendingScreenShareIds m; heap := heap m |}.

Definition set_pendingScreenShareIds (v : gmap string string)
    (m : Manager) : Manager :=
  {| ws := ws m; pc := pc m; roomId := roomId m; clientId := clientId m;
     userName := userName m;
     screenShareVideoTransceiver := screenShareVideoTransceiver m;
     screenShareAudioTransceiver := screenShareAudioTransceiver m;
     exited := exited m; pendingStreams := pendingStreams m;
     pendingScreenShareIds := v; heap := heap m |}.

Definition set_heap (v : list RTCRtpTransceiver) (m : Manager) : Manager :=
  {| ws := ws m; pc := pc m; roomId := roomId m; clientId := clientId m;
     userName := userName m;
     screenShareVideoTransceiver := screenShareVideoTransceiver m;
     screenShareAudioTransceiver := screenShareAudioTransceiver m;
     exited := exited m; pendingStreams := pendingStreams m;
     pendingScreenShareIds := pendingScreenShareIds m; heap := v |}.

(** The constructor: no socket, no connection, [exited = true], empty maps. *)
Definition new_RoomConnectionManager (room client user : string) : Manager :=
  {| ws := None; pc := None; roomId := room; clientId := client;
     userName := user;
     screenShareVideoTransceiver := None;
     screenShareAudioTransceiver := None;
     exited := true; pendingStreams := ∅; pendingScreenShareIds := ∅;
     heap := [] |}.

(** ** The monad: state, exceptions, effect trace *)

Inductive Result (A : Type) :=
  | Ret (a : A)
  | Throw (e : Exn).
Arguments Ret {A} a.
Arguments Throw {A} e.

Definition M (A : Type) : Type := Manager -> Result A * Manager * list Effect.

#[global] Instance M_ret : MRet M := fun A (a : A) m => (Ret a, m, []).

Definition throw {A} (e : Exn) : M A := fun m => (Throw e, m, []).

#[global] Instance M_bind : MBind M := fun A B (k : A -> M B) (c : M A) m =>
  match c m with
  | (Ret a, m1, t1) =>
      match k a m1 with
      | (r, m2, t2) => (r, m2, t1 ++ t2)
      end
  | (Throw e, m1, t1) => (Throw e, m1, t1)
  end.

(** [try { c } catch (err) { h }] *)
Definition try_catch {A} (c : M A) (h : Exn -> M A) : M A := fun m =>
  match c m with
  | (Ret a, m1, t1) => (Ret a, m1, t1)
  | (Throw e, m1, t1) =>
      match h e m1 with
      | (r, m2, t2) => (r, m2, t1 ++ t2)
      end
  end.

Definition get : M Manager := fun m => (Ret m, m, []).
Definition modify (f : Manager -> Manager) : M unit := fun m => (Ret tt, f m, []).
Definition emit (e : Effect) : M unit := fun m => (Ret tt, m, [e]).

Definition state_of {A} (r : Result A * Manager * list Effect) : Manager :=
  snd (fst r).
Definition trace_of {A} (r : Result A * Manager * list Effect) : list Effect :=
  snd r.
Definition result_of {A} (r : Result A * Manager * list Effect) : Result A :=
  fst (fst r).

(** ** Stream identifiers *)

(** [String.prototype.includes]: [needle] occurs somewhere in [s]. *)
Fixpoint includes (s needle : string) : bool :=
  String.prefix needle s
  || match s with
     | EmptyString => false
     | String _ rest => includes rest needle
     end.

Definition in_range (lo hi c : ascii) : bool :=
  Nat.leb (nat_of_ascii lo) (nat_of_ascii c)
  && Nat.leb (nat_of_ascii c) (nat_of_ascii hi).

Definition is_hex (c : ascii) : bool :=
  in_range "0"%char "9"%char c || in_range "a"%char "f"%char c
  || in_range "A"%char "F"%char c.

Definition is_dash (c : ascii) : bool := Ascii.eqb c "-"%char.
Definition is_zero (c : ascii) : bool := Ascii.eqb c "0"%char.
Definition is_f (c : ascii) : bool :=
  Ascii.eqb c "f"%char || Ascii.eqb c "F"%char.
Definition is_version (c : ascii) : bool := in_range "1"%char "8"%char c.
Definition is_variant (c : ascii) : bool :=
  in_range "8"%char "9"%char c || in_range "a"%char "b"%char c
  || in_range "A"%char "B"%char c.

(** An anchored pattern made of one character class per position. *)
Fixpoint matches (classes : list (ascii -> bool)) (s : string) : bool :=
  match classes, s with
  | [], EmptyString => true
  | cl :: classes', String c rest => cl c && matches classes' rest
  | _, _ => false
  end.

Definition grouped (a b c d e : list (ascii -> bool)) : list (ascii -> bool) :=
  a ++ [is_dash] ++ b ++ [is_dash] ++ c ++ [is_dash] ++ d ++ [is_dash] ++ e.

Definition uuid_pattern : list (ascii -> bool) :=
  grouped (repeat is_hex 8) (repeat is_hex 4)
          (is_version :: repeat is_hex 3) (is_variant :: repeat is_hex 3)
          (repeat is_hex 12).

Definition uniform_pattern (cl : ascii -> bool) : list (ascii -> bool) :=
  grouped (repeat cl 8) (repeat cl 4) (repeat cl 4) (repeat cl 4) (repeat cl 12).

(** [validate] of the [uuid] package (imported as [isValidUUID]): the
    case-insensitive test of the package's regular expression, which accepts
    the versioned layout, the nil UUID and the max UUID. *)
Definition isValidUUID (s : string) : bool :=
  matches uuid_pattern s
  || matches (uniform_pattern is_zero) s
  || matches (uniform_pattern is_f) s.

Fixpoint all_chars (P : ascii -> bool) (s : string) : bool :=
  match s with
  | EmptyString => true
  | String c rest => P c && all_chars P rest
  end.

Definition uuid_char (c : ascii) : bool := is_hex c || is_dash c.

(** ** Results of the awaited browser calls *)

Record Browser := {
  newPeerConnection_ok : bool;
  (* [Some ds]: resolves, having created transceivers with directions [ds] *)
  setRemoteDescription_res : option (list Direction);
  createAnswer_res : option string;
  createOffer_res : option string;
  setLocalDescription_ok : bool;
  addIceCandidate_ok : bool;
  replaceTrack_ok : bool;
  setParameters_ok : bool
}.

(** ** Operations on the browser objects *)

Definition with_onmessage (h : MessageHandler) (w : WebSocket) : WebSocket :=
  {| readyState := readyState w; onmessage := h; onclose := onclose w |}.

Definition with_readyState (r : ReadyState) (w : WebSocket) : WebSocket :=
  {| readyState := r; onmessage := onmessage w; onclose := onclose w |}.

Definition with_onclose (b : bool) (w : WebSocket) : WebSocket :=
  {| readyState := readyState w; onmessage := onmessage w; onclose := b |}.

Definition with_handlers (b : bool) (p : RTCPeerConnection) : RTCPeerConnection :=
  {| onicecandidate := b; onconnectionstatechange := b; ontrack := b;
     onnegotiationneeded := onnegotiationneeded p;
     getTransceivers := getTransceivers p;
     localDescription := localDescription p |}.

Definition with_onnegotiationneeded (b : bool) (p : RTCPeerConnection)
    : RTCPeerConnection :=
  {| onicecandidate := onicecandidate p;
     onconnectionstatechange := onconnectionstatechange p;
     ontrack := ontrack p;
     onnegotiationneeded := b;
     getTransceivers := getTransceivers p;
     localDescription := localDescription p |}.

Definition with_transceivers (l : list TransceiverRef) (p : RTCPeerConnection)
    : RTCPeerConnection :=
  {| onicecandidate := onicecandidate p;
     onconnectionstatechange := onconnectionstatechange p;
     ontrack := ontrack p;
     onnegotiationneeded := onnegotiationneeded p;
     getTransceivers := l;
     localDescription := localDescription p |}.

Definition with_localDescription (d : option (string * string))
    (p : RTCPeerConnection) : RTCPeerConnection :=
  {| onicecandidate := onicecandidate p;
     onconnectionstatechange := onconnectionstatechange p;
     ontrack := ontrack p;
     onnegotiationneeded := onnegotiationneeded p;
     getTransceivers := getTransceivers p;
     localDescription := d |}.

Definition with_direction (d : Direction) (t : RTCRtpTransceiver)
    : RTCRtpTransceiver :=
  {| direction := d; senderTrack := senderTrack t;
     degradationPreference := degradationPreference t |}.

Definition with_senderTrack (tr : option MediaStreamTrack)
    (t : RTCRtpTransceiver) : RTCRtpTransceiver :=
  {| direction := direction t; senderTrack := tr;
     degradationPreference := degradationPreference t |}.

Definition with_degradationPreference (p : option string)
    (t : RTCRtpTransceiver) : RTCRtpTransceiver :=
  {| direction := direction t; senderTrack := senderTrack t;
     degradationPreference := p |}.

Definition fresh_pc : RTCPeerConnection :=
  {| onicecandidate := false; onconnectionstatechange := false;
     ontrack := false; onnegotiationneeded := false;
     getTransceivers := []; localDescription := None |}.

Definition update_ws (f : WebSocket -> WebSocket) : M unit :=
  modify (fun m => set_ws (f <$> ws m) m).

Definition update_pc (f : RTCPeerConnection -> RTCPeerConnection) : M unit :=
  modify (fun m => set_pc (f <$> pc m) m).

Definition update_transceiver (tr : TransceiverRef)
    (f : RTCRtpTransceiver -> RTCRtpTransceiver) : M unit :=
  modify (fun m => set_heap (alter f tr (heap m)) m).

(** Allocate transceivers in the heap and attach them to the connection. *)
Definition attach_transceivers (ts : list RTCRtpTransceiver) : M unit :=
  modify (fun m =>
    let refs := seq (length (heap m)) (length ts) in
    set_pc ((fun p => with_transceivers (getTransceivers p ++ refs) p) <$> pc m)
           (set_heap (heap m ++ ts) m)).

Definition new_transceiver (d : Direction) (t : option MediaStreamTrack)
    : RTCRtpTransceiver :=
  {| direction := d; senderTrack := t; degradationPreference := None |}.

(** [this.pc = new RTCPeerConnection(...)]: the field is assigned only when
    the constructor returns. *)
Definition new_RTCPeerConnection (br : Browser) : M unit :=
  if newPeerConnection_ok br
  then emit (Pc pc_new);; modify (set_pc (Some fresh_pc))
  else throw RtcError.

(** [this.pc.addTrack(tracks[0], stream)]; [tracks[0]] is [undefined] for an
    empty list, which [addTrack] rejects with a [TypeError]. *)
Definition addTrack (t : option MediaStreamTrack) : M unit :=
  match t with
  | None => throw TypeError
  | Some t =>
      emit (Pc (pc_addTrack t));;
      attach_transceivers [new_transceiver sendrecv (Some t)]
  end.

Definition setRemoteDescription (ty sdp : string) (br : Browser) : M unit :=
  emit (Pc (pc_setRemoteDescription ty sdp));;
  match setRemoteDescription_res br with
  | None => throw RtcError
  | Some ds => attach_transceivers ((fun d => new_transceiver d None) <$> ds)
  end.

Definition createAnswer (br : Browser) : M string :=
  emit (Pc pc_createAnswer);;
  match createAnswer_res br with
  | None => throw RtcError
  | Some sdp => mret sdp
  end.

Definition createOffer (br : Browser) : M string :=
  emit (Pc pc_createOffer);;
  match createOffer_res br with
  | None => throw RtcError
  | Some sdp => mret sdp
  end.

Definition setLocalDescription (ty sdp : string) (br : Browser) : M unit :=
  emit (Pc (pc_setLocalDescription ty sdp));;
  if setLocalDescription_ok br
  then update_pc (with_localDescription (Some (ty, sdp)))
  else throw RtcError.

Definition addIceCandidate (c : string) (br : Browser) : M unit :=
  emit (Pc (pc_addIceCandidate c));;
  if addIceCandidate_ok br then mret tt else throw RtcError.

Definition replaceTrack (tr : TransceiverRef) (t : MediaStreamTrack)
    (br : Browser) : M unit :=
  emit (Pc (sender_replaceTrack tr t));;
  if replaceTrack_ok br
  then update_transceiver tr (with_senderTrack (Some t))
  else throw RtcError.

(** [getParameters], the assignment of [degradationPreference] and
    [setParameters], the three statements of the inner [try]. *)
Definition setParameters (tr : TransceiverRef) (br : Browser) : M unit :=
  if setParameters_ok br
  then emit (Pc (sender_setParameters tr));;
       update_transceiver tr
         (with_degradationPreference (Some "maintain-resolution"))
  else throw RtcError.

(** JSON form of [this.pc.localDescription]. *)
Definition description_json (m : Manager) : JsonObject :=
  match pc m ≫= localDescription with
  | Some (ty, sdp) => [("type", ty); ("sdp", sdp)]
  | None => []
  end.

(** ** The methods of [RoomConnectionManager] *)

Definition ws_is_open (m : Manager) : bool :=
  match ws m with
  | Some w => bool_decide (readyState w = OPEN)
  | None => false
  end.

(** [ws.send] on a socket whose ready state is [OPEN] does not throw, so the
    inner [try]/[catch] of [sendMessage] has no second outcome. *)
Definition sendMessage (ty : string) (p : JsonObject) : M unit :=
  m ← get;
  if negb (ws_is_open m)
  then emit (Console error "Cannot send message, WebSocket is not available. Type: ")
  else emit (Send {| type := ty; msg_clientId := clientId m;
                     msg_roomId := roomId m; payload := p |}).

Definition initSignalingConnection : M unit :=
  emit WsNew;;
  modify (set_ws (Some {| readyState := CONNECTING;
                          onmessage := LogWebrtcInactive;
                          onclose := true |}));;
  modify (set_exited true).

Definition disconnect : M unit :=
  m ← get;
  if exited m then mret tt
  else
    emit (Console log "Disconnecting...");;
    modify (set_exited true);;
    (if ws_is_open m
     then sendMessage "exit" [("peerName", userName m)]
     else mret tt);;
    update_ws (with_onmessage LogInactive);;
    (match pc m with
     | Some _ =>
         update_pc (with_onnegotiationneeded false ∘ with_handlers false);;
         emit (Pc pc_close);;
         modify (set_pc None)
     | None => mret tt
     end);;
    emit (Call (onStatusChange st_inactive));;
    emit (Call onRemoteStreamStopped).

Definition connect (localStream : MediaStream) (br : Browser) : M unit :=
  m ← get;
  if negb (ws_is_open m)
  then emit (Call (onError "Signaling server not connected"))
  else
    modify (set_exited false);;
    try_catch
      (new_RTCPeerConnection br;;
       addTrack (getVideoTracks localStream !! 0%nat);;
       addTrack (getAudioTracks localStream !! 0%nat);;
       update_pc (with_handlers true);;
       update_ws (with_onmessage HandleWsMessage);;
       sendMessage "join" [("name", userName m)])
      (fun _ =>
         emit (Console error "Error during connection setup:");;
         emit (Call (onError "Failed to start call"));;
         disconnect).

Definition startScreenShare (stream : MediaStream) (br : Browser) : M unit :=
  m ← get;
  match screenShareVideoTransceiver m with
  | None => emit (Console error "No screen share video transceiver available")
  | Some tr =>
      match getVideoTracks stream !! 0%nat with
      | None => throw TypeError     (* ["contentHint" in undefined] *)
      | Some track =>
          let screenTrack :=
            match contentHint track with
            | Some _ => {| trackId := trackId track;
                           contentHint := Some "detail" |}
            | None => track
            end in
          replaceTrack tr screenTrack br;;
          try_catch
            (setParameters tr br;;
             emit (Console log "Screen share configured for high resolution"))
            (fun _ =>
               emit (Console log "Failed to get screen share encoding parameters"));;
          sendMessage "screenShareRequest" []
      end
  end.

Definition stopScreenShare (streamId : string) : M unit :=
  sendMessage "peerScreenShareStop" [("streamId", streamId)].

Definition cleanup : M unit :=
  disconnect;;
  m ← get;
  match ws m with
  | Some _ =>
      update_ws (with_onclose false);;
      emit WsClose;;
      modify (set_ws None)
  | None => mret tt
  end.

Definition handleIceCandidate (candidate : option string) : M unit :=
  match candidate with
  | Some c => sendMessage "candidate" [("candidate", c)]
  | None => emit (Console log "Received invalid ICE candidate event: ")
  end.

Definition handleConnectionStateChange (connectionState : ConnectionState)
    : M unit :=
  m ← get;
  match pc m with
  | None => mret tt
  | Some _ =>
      emit (Console log "PC Connection update: ");;
      match connectionState with
      | cs_connected => emit (Call (onStatusChange st_active))
      | cs_disconnected | cs_failed | cs_closed => disconnect
      | _ => mret tt
      end
  end.

Definition handleTrack (streams : list MediaStream) : M unit :=
  emit (Console log "Received remote track event: ");;
  match streams !! 0%nat with
  | None => mret tt
  | Some remoteStream =>
      m ← get;
      (match pendingScreenShareIds m !! stream_id remoteStream with
       | Some owner =>
           emit (Call (onPeerScreenShare owner remoteStream));;
           modify (fun m => set_pendingScreenShareIds
                     (delete (stream_id remoteStream) (pendingScreenShareIds m)) m)
       | None =>
           if isValidUUID (stream_id remoteStream)
           then emit (Call (onRemoteStream remoteStream))
           else if includes (stream_id remoteStream) "screen"
           then modify (fun m => set_pendingStreams
                          (<[stream_id remoteStream := remoteStream]>
                             (pendingStreams m)) m)
           else emit (Console warn "Received remote stream with unrecognized ID: ")
       end);;
      sendMessage "pli" []
  end.

(** The [try] block of [handleNegotiationNeeded]. *)
Definition negotiation_try (br : Browser) : M unit :=
  offer ← createOffer br;
  setLocalDescription "offer" offer br;;
  m ← get;
  sendMessage "offer" (description_json m).

Definition handleNegotiationNeeded (br : Browser) : M unit :=
  m ← get;
  match pc m with
  | None => mret tt
  | Some _ =>
      try_catch
        (negotiation_try br)
        (fun _ => emit (Console error "Error during negotiationneeded handling: "))
  end.

(** The [switch (msg.type)] inside the [try] block of [handleWsMessage]. *)
Definition wsMessage_switch (msg : Inbound) (br : Browser) : M unit :=
  match msg with
  | InOffer sdp =>
      setRemoteDescription "offer" sdp br;;
      m ← get;
      let transceivers := default [] (getTransceivers <$> pc m) in
      (if Nat.leb 4 (length transceivers)
       then
         match transceivers !! 2%nat, transceivers !! 3%nat with
         | Some video, Some audio =>
             modify (set_screenShareVideoTransceiver (Some video));;
             modify (set_screenShareAudioTransceiver (Some audio));;
             update_transceiver audio (with_direction sendonly);;
             update_transceiver video (with_direction sendonly)
         | _, _ => throw TypeError
         end
       else
         emit (Console warn
           "Expected at least 4 transceivers, no screen share transceivers stored"));;
      ans ← createAnswer br;
      setLocalDescription "answer" ans br;;
      m ← get;
      sendMessage "answer" (description_json m);;
      emit (Pc (pc_set_onnegotiationneeded true));;
      update_pc (with_onnegotiationneeded true)
  | InAnswer sdp =>
      setRemoteDescription "answer" sdp br
  | InCandidate c =>
      addIceCandidate c br
  | InPeerExit peerId peerName =>
      emit (Call (onPeerExit peerId peerName));;
      emit (Call onRemoteStreamStopped)
  | InPeerScreenShare streamId peerId =>
      m ← get;
      match pendingStreams m !! streamId with
      | Some screenStream =>
          modify (fun m => set_pendingStreams
                    (delete streamId (pendingStreams m)) m);;
          emit (Call (onPeerScreenShare peerId screenStream))
      | None =>
          modify (fun m => set_pendingScreenShareIds
                    (<[streamId := peerId]> (pendingScreenShareIds m)) m)
      end
  | InPeerScreenShareStop peerId =>
      m ← get;
      if bool_decide (is_Some (pendingStreams m !! peerId))
      then modify (fun m => set_pendingStreams
                     (delete peerId (pendingStreams m)) m)
      else if bool_decide (is_Some (pendingScreenShareIds m !! peerId))
      then modify (fun m => set_pendingScreenShareIds
                     (delete peerId (pendingScreenShareIds m)) m)
      else emit (Call (onPeerScreenShareStopped peerId))
  | InOther _ =>
      emit (Console warn "Unhandled WS message type: ")
  end.

(** [data = None]: [JSON.parse(event.data)] throws; the call sits before the
    [try] block. *)
Definition handleWsMessage (data : option Inbound) (br : Browser) : M unit :=
  m ← get;
  match pc m with
  | None => mret tt
  | Some _ =>
      match data with
      | None => throw SyntaxError
      | Some msg =>
          emit (Console log "msg (call active): ");;
          try_catch
            (wsMessage_switch msg br)
            (fun _ => emit (Console error "Error in WS message handler: "))
      end
  end.

(** ** The event loop

    What the application and the browser can do to a manager: call a public
    method, or deliver an event to whichever handler is installed at that
    moment.  An exception that leaves a handler is recorded and the loop goes
    on. *)

Inductive Event :=
  | CallInitSignalingConnection
  | CallConnect (localStream : MediaStream) (br : Browser)
  | CallStartScreenShare (stream : MediaStream) (br : Browser)
  | CallStopScreenShare (streamId : string)
  | CallDisconnect
  | CallCleanup
  | WsOpen
  | WsClosed
  | WsError
  | WsMessage (data : option Inbound) (br : Browser)
  | PcIceCandidate (candidate : option string)
  | PcConnectionStateChange (connectionState : ConnectionState)
  | PcTrack (streams : list MediaStream)
  | PcNegotiationNeeded (br : Browser).

Definition log_message (text : string) (data : option Inbound) : M unit :=
  match data with
  | None => throw SyntaxError
  | Some _ => emit (Console log text)
  end.

Definition installed (sel : RTCPeerConnection -> bool) (m : Manager) : bool :=
  match pc m with
  | Some p => sel p
  | None => false
  end.

Definition dispatch (e : Event) : M unit :=
  match e with
  | CallInitSignalingConnection => initSignalingConnection
  | CallConnect localStream br => connect localStream br
  | CallStartScreenShare stream br => startScreenShare stream br
  | CallStopScreenShare streamId => stopScreenShare streamId
  | CallDisconnect => disconnect
  | CallCleanup => cleanup
  | WsOpen =>
      m ← get;
      match ws m with
      | Some _ =>
          update_ws (with_readyState OPEN);;
          emit (Console log "WebSocket connected.")
      | None => mret tt
      end
  | WsClosed =>
      m ← get;
      match ws m with
      | Some w =>
          update_ws (with_readyState CLOSED);;
          if onclose w
          then emit (Console log "WebSocket disconnected");; disconnect
          else mret tt
      | None => mret tt
      end
  | WsError =>
      m ← get;
      match ws m with
      | Some _ =>
          emit (Console error "Websocket error: ");;
          emit (Call (onError "Signaling server connection failed"))
      | None => mret tt
      end
  | WsMessage data br =>
      m ← get;
      match ws m with
      | Some w =>
          match onmessage w with
          | LogWebrtcInactive => log_message "WS msg (webrtc inactive): " data
          | LogInactive => log_message "WS msg (inactive): " data
          | HandleWsMessage => handleWsMessage data br
          end
      | None => mret tt
      end
  | PcIceCandidate candidate =>
      m ← get;
      if installed onicecandidate m then handleIceCandidate candidate else mret tt
  | PcConnectionStateChange connectionState =>
      m ← get;
      if installed onconnectionstatechange m
      then handleConnectionStateChange connectionState
      else mret tt
  | PcTrack streams =>
      m ← get;
      if installed ontrack m then handleTrack streams else mret tt
  | PcNegotiationNeeded br =>
      m ← get;
      if installed onnegotiationneeded m then handleNegotiationNeeded br else mret tt
  end.

Definition step (e : Event) : M unit :=
  try_catch (dispatch e) (fun ex => emit (Uncaught ex)).

Fixpoint run (es : list Event) : M unit :=
  match es with
  | [] => mret tt
  | e :: es' => step e;; run es'
  end.

(** ** Observations on traces *)

Definition sent (t : list Effect) : list SignalMessage :=
  omap (fun e => match e with Send m => Some m | _ => None end) t.

Definition callbacks (t : list Effect) : list Callback :=
  omap (fun e => match e with Call c => Some c | _ => None end) t.

Definition sent_of_type (ty : string) (t : list Effect) : list SignalMessage :=
  filter (fun m => type m = ty) (sent t).

Definition screen_shares (t : list Effect) : list (string * MediaStream) :=
  omap (fun e => match e with
                 | Call (onPeerScreenShare p s) => Some (p, s)
                 | _ => None
                 end) t.

(** The value of field [k] of a JSON object. *)
Fixpoint field (k : string) (o : JsonObject) : option string :=
  match o with
  | [] => None
  | (k', v) :: rest => if String.eqb k k' then Some v else field k rest
  end.

(** The [replaceTrack] calls of a trace: which transceiver, which track. *)
Definition replaced (t : list Effect)
    : list (TransceiverRef * MediaStreamTrack) :=
  omap (fun e => match e with
                 | Pc (sender_replaceTrack tr track) => Some (tr, track)
                 | _ => None
                 end) t.


(** ** The consumer of the screen-share callbacks

    [RoomFeed.tsx] keeps the share on display in its [screenShare] state and
    passes the manager two callbacks that update it.  Only that state, the
    layout override set next to it and what the two callbacks show or log are
    kept here; the other callbacks of [RoomFeed] do not read or write them. *)

Record ScreenShare := {
  share_stream : MediaStream;
  share_peerId : string
}.

Record RoomFeed := {
  screenShare : option ScreenShare;
  speakerLayoutOverride : bool
}.

Inductive FeedEffect :=
  | toast (text : string)
  | feed_console_error (text : string)
  | stop_tracks (stream : MediaStream).

(** [callbacks.onPeerScreenShare] of [RoomFeed]. *)
Definition feed_onPeerScreenShare (peerId : string) (stream : MediaStream)
    (f : RoomFeed) : RoomFeed * list FeedEffect :=
  ({| screenShare := Some {| share_stream := stream; share_peerId := peerId |};
      speakerLayoutOverride := true |},
   toast (peerId +:+ " has started screen sharing")
   :: match screenShare f with
      | Some prev => [stop_tracks (share_stream prev)]
      | None => []
      end).

(** [callbacks.onPeerScreenShareStopped] of [RoomFeed]. *)
Definition feed_onPeerScreenShareStopped (peerId : string) (f : RoomFeed)
    : RoomFeed * list FeedEffect :=
  let shown := toast (peerId +:+ " has stopped screen sharing") in
  match screenShare f with
  | None =>
      ({| screenShare := None; speakerLayoutOverride := false |},
       [shown; feed_console_error "No active screen share to stop"])
  | Some prev =>
      if bool_decide (share_peerId prev <> peerId)
      then ({| screenShare := Some prev; speakerLayoutOverride := false |},
            [shown;
             feed_console_error
               "Screen share peerId does not match active screen share"])
      else ({| screenShare := None; speakerLayoutOverride := false |},
            [shown; stop_tracks (share_stream prev)])
  end.

(** What a callback of the manager does to the share on display. *)
Definition feed_callback (c : Callback) (f : RoomFeed)
    : RoomFeed * list FeedEffect :=
  match c with
  | onPeerScreenShare peerId stream => feed_onPeerScreenShare peerId stream f
  | onPeerScreenShareStopped peerId => feed_onPeerScreenShareStopped peerId f
  | _ => (f, [])
  end.


(** The state of a freshly mounted [RoomFeed]: nothing is shared. *)
Definition mounted_feed : RoomFeed :=
  {| screenShare := None; speakerLayoutOverride := false |}.

(** ** Properties of states and events *)

(** No stream id is a key of both maps. *)
Definition disjoint_buffers (m : Manager) : Prop :=
  forall s : string,
    ~ (is_Some (pendingStreams m !! s)
       /\ is_Some (pendingScreenShareIds m !! s)).


(** Every transceiver reference held by the connection points into the
    heap. *)
Definition refs_valid (m : Manager) : Prop :=
  forall p : RTCPeerConnection,
    pc m = Some p ->
    Forall (fun r => r < length (heap m)) (getTransceivers p).

(** The call is running: [pc.ontrack] is [handleTrack] and [ws.onmessage] is
    [handleWsMessage]. *)
Definition call_active (m : Manager) : Prop :=
  installed ontrack m = true /\ onmessage <$> ws m = Some HandleWsMessage.


(** Every event but an inbound offer. *)
Definition not_offer (e : Event) : bool :=
  match e with
  | WsMessage (Some (InOffer _)) _ => false
  | _ => true
  end.

(** ** Concrete sessions used in examples *)

(** A browser in which every call succeeds; the remote description creates
    transceivers with the directions [created]. *)
Definition cooperative (created : list Direction) : Browser :=
  {| newPeerConnection_ok := true;
     setRemoteDescription_res := Some created;
     createAnswer_res := Some "v=0 answer";
     createOffer_res := Some "v=0 offer";
     setLocalDescription_ok := true;
     addIceCandidate_ok := true;
     replaceTrack_ok := true;
     setParameters_ok := true |}.

(** A browser that rejects the remote description. *)
Definition rejecting : Browser :=
  {| newPeerConnection_ok := true;
     setRemoteDescription_res := None;
     createAnswer_res := Some "v=0 answer";
     createOffer_res := Some "v=0 offer";
     setLocalDescription_ok := true;
     addIceCandidate_ok := true;
     replaceTrack_ok := true;
     setParameters_ok := true |}.

Definition camera : MediaStream :=
  {| stream_id := "local-camera";
     getVideoTracks := [{| trackId := 1; contentHint := Some "" |}];
     getAudioTracks := [{| trackId := 2; contentHint := None |}] |}.

Definition display : MediaStream :=
  {| stream_id := "local-display";
     getVideoTracks := [{| trackId := 3; contentHint := Some "" |}];
     getAudioTracks := [] |}.

Definition remote_screen : MediaStream :=
  {| stream_id := "screen-7";
     getVideoTracks := [{| trackId := 8; contentHint := None |}];
     getAudioTracks := [{| trackId := 9; contentHint := None |}] |}.

Definition fresh_manager : Manager :=
  new_RoomConnectionManager "room-1" "client-1" "alice".

(** The socket has been created and has opened; no call yet. *)
Definition idle_manager : Manager :=
  state_of (run [CallInitSignalingConnection; WsOpen] fresh_manager).

(** A call is running: the peer connection exists, its handlers are
    installed and [ws.onmessage] is [handleWsMessage]. *)
Definition joined_manager : Manager :=
  state_of (run [CallInitSignalingConnection; WsOpen;
                 CallConnect camera (cooperative [])] fresh_manager).


(** A call in which the owner of "screen-7" is known but the stream has not
    arrived. *)
Definition announced_manager : Manager :=
  state_of (run [CallInitSignalingConnection; WsOpen;
                 CallConnect camera (cooperative []);
                 WsMessage (Some (InPeerScreenShare "screen-7" "peer-2"))
                   (cooperative [])]
              (new_RoomConnectionManager "room-1" "client-1" "alice")).

(** The events that take a new manager into a running call. *)
Definition joining : list Event :=
  [CallInitSignalingConnection; WsOpen; CallConnect camera (cooperative [])].


(** An inbound offer whose remote description is accepted and creates
    transceivers with the directions [created]. *)
Definition offer_with (created : list Direction) : Event :=
  WsMessage (Some (InOffer "v=0 offer")) (cooperative created).

(** A second call on the same manager: the first offer had four
    transceivers, the offer after the reconnection has two. *)
Definition reconnected_manager : Manager :=
  state_of (run (joining
                 ++ [offer_with [recvonly; recvonly]; CallDisconnect;
                     CallConnect camera (cooperative []); offer_with []])
              fresh_manager).

(** The peer connection of [joined_manager]: the two transceivers of the
    camera tracks, handlers installed, no renegotiation handler yet. *)
Definition joined_pc : RTCPeerConnection :=
  {| onicecandidate := true; onconnectionstatechange := true;
     ontrack := true; onnegotiationneeded := false;
     getTransceivers := [0; 1]; localDescription := None |}.

(** ** More properties of states and events *)

(** The three values the constructor stores. *)
Definition identity (m : Manager) : string * string * string :=
  (roomId m, clientId m, userName m).

(** The envelope that [sendMessage(ty, p)] builds. *)
Definition envelope (m : Manager) (ty : string) (p : JsonObject)
    : SignalMessage :=
  {| type := ty; msg_clientId := clientId m; msg_roomId := roomId m;
     payload := p |}.

(** Every event but a new call of [initSignalingConnection]. *)
Definition no_init (e : Event) : bool :=
  match e with
  | CallInitSignalingConnection => false
  | _ => true
  end.

(** [exited] is true exactly when there is no peer connection. *)
Definition exited_mirrors_pc (m : Manager) : Prop :=
  exited m = match pc m with Some _ => false | None => true end.

(** Every buffered stream is stored under its own id, and that id contains
    "screen" and is no UUID. *)
Definition screen_keyed (m : Manager) : Prop :=
  forall (k : string) (v : MediaStream),
    pendingStreams m !! k = Some v ->
    stream_id v = k /\ includes k "screen" = true /\ isValidUUID k = false.


(** The two events whose handler has code outside every [try]: a message
    that [JSON.parse] rejects, and [startScreenShare]. *)
Definition may_throw (e : Event) : bool :=
  match e with
  | WsMessage None _ | CallStartScreenShare _ _ => true
  | _ => false
  end.

(** ** [RoomFeed.tsx]: the page around the manager

    The state of the component, the [callbacks] object it hands to the
    manager, and the functions behind its buttons.  A state updater runs
    once; [console.log] calls of the page are left out. *)

(** [callStatus]: the two values the manager reports and the "loading" that
    [joinRoom] sets. *)
Inductive FeedStatus := fs_inactive | fs_loading | fs_active.

Definition feed_status (s : CallStatus) : FeedStatus :=
  match s with
  | st_active => fs_active
  | st_inactive => fs_inactive
  end.

(** [remoteStreams]: a JavaScript [Map], which keeps its keys in insertion
    order; [values()] follows that order. *)
Definition RemoteStreams := list (string * MediaStream).

Definition map_has (k : string) (l : RemoteStreams) : bool :=
  bool_decide (k ∈ l.*1).

Fixpoint map_get (k : string) (l : RemoteStreams) : option MediaStream :=
  match l with
  | [] => None
  | (k', v) :: rest => if bool_decide (k' = k) then Some v else map_get k rest
  end.

Definition map_delete (k : string) (l : RemoteStreams) : RemoteStreams :=
  filter (fun kv => kv.1 <> k) l.

Definition map_set (k : string) (v : MediaStream) (l : RemoteStreams)
    : RemoteStreams :=
  if map_has k l
  then (fun kv => if bool_decide (kv.1 = k) then (k, v) else kv) <$> l
  else l ++ [(k, v)].

Record Room := {
  callStatus : FeedStatus;
  localStream : option MediaStream;
  remoteStreams : RemoteStreams;
  feed : RoomFeed;
  screenIsShared : bool;
  isScreenSelectorOpen : bool
}.

Definition set_callStatus (v : FeedStatus) (r : Room) : Room :=
  {| callStatus := v; localStream := localStream r;
     remoteStreams := remoteStreams r; feed := feed r;
     screenIsShared := screenIsShared r;
     isScreenSelectorOpen := isScreenSelectorOpen r |}.

Definition set_localStream (v : option MediaStream) (r : Room) : Room :=
  {| callStatus := callStatus r; localStream := v;
     remoteStreams := remoteStreams r; feed := feed r;
     screenIsShared := screenIsShared r;
     isScreenSelectorOpen := isScreenSelectorOpen r |}.

Definition set_remoteStreams (v : RemoteStreams) (r : Room) : Room :=
  {| callStatus := callStatus r; localStream := localStream r;
     remoteStreams := v; feed := feed r;
     screenIsShared := screenIsShared r;
     isScreenSelectorOpen := isScreenSelectorOpen r |}.

Definition set_feed (v : RoomFeed) (r : Room) : Room :=
  {| callStatus := callStatus r; localStream := localStream r;
     remoteStreams := remoteStreams r; feed := v;
     screenIsShared := screenIsShared r;
     isScreenSelectorOpen := isScreenSelectorOpen r |}.

Definition set_screenIsShared (v : bool) (r : Room) : Room :=
  {| callStatus := callStatus r; localStream := localStream r;
     remoteStreams := remoteStreams r; feed := feed r;
     screenIsShared := v;
     isScreenSelectorOpen := isScreenSelectorOpen r |}.

Definition set_isScreenSelectorOpen (v : bool) (r : Room) : Room :=
  {| callStatus := callStatus r; localStream := localStream r;
     remoteStreams := remoteStreams r; feed := feed r;
     screenIsShared := screenIsShared r;
     isScreenSelectorOpen := v |}.

(** What the page shows, logs as an error, or stops. *)
Inductive RoomEffect :=
  | feed_effect (e : FeedEffect)
  | toast_error (text : string).

(** The updater that [onRemoteStream] passes to [setRemoteStreams]. *)
Definition addRemoteStream (stream : MediaStream) (prev : RemoteStreams)
    : RemoteStreams :=
  if map_has (stream_id stream) prev
  then prev
  else map_set (stream_id stream) stream prev.

(** The updater that [onPeerExit] passes to [setRemoteStreams], with what it
    stops, shows and logs. *)
Definition removePeerStream (peerId peerName : string) (prev : RemoteStreams)
    : RemoteStreams * list RoomEffect :=
  match map_get peerId prev with
  | Some stream =>
      (map_delete peerId prev,
       [feed_effect (stop_tracks stream);
        feed_effect (toast (peerName +:+ " has left the room"))])
  | None =>
      (prev,
       [feed_effect
          (feed_console_error
             ("Stream does not exist for peer " +:+ peerName
              +:+ " with id " +:+ peerId))])
  end.

(** The [callbacks] object that [RoomFeed] hands to the manager. *)
Definition room_callback (c : Callback) (r : Room) : Room * list RoomEffect :=
  match c with
  | onStatusChange status => (set_callStatus (feed_status status) r, [])
  | onRemoteStream stream =>
      (set_remoteStreams (addRemoteStream stream (remoteStreams r)) r, [])
  | onRemoteStreamStopped => (r, [])
  | onPeerExit peerId peerName =>
      let '(streams, t) := removePeerStream peerId peerName (remoteStreams r) in
      (set_remoteStreams streams r, t)
  | onPeerScreenShare _ _ | onPeerScreenShareStopped _ =>
      let '(f, t) := feed_callback c (feed r) in
      (set_feed f r, feed_effect <$> t)
  | onError message => (r, [toast_error message])
  end.

Fixpoint room_callbacks (cs : list Callback) (r : Room)
    : Room * list RoomEffect :=
  match cs with
  | [] => (r, [])
  | c :: rest =>
      let '(r1, t1) := room_callback c r in
      let '(r2, t2) := room_callbacks rest r1 in
      (r2, t1 ++ t2)
  end.

(** A mounted page: the manager that [roomConnectionManagerRef] holds and the
    state of the component.  [clientId.current] is the id the manager was
    built with. *)
Definition Page : Type := Manager * Room.

Record Outcome := {
  page : Page;
  manager_trace : list Effect;
  room_trace : list RoomEffect
}.

(** Run a computation of the manager and deliver the callbacks it fires. *)
Definition with_manager (c : M unit) (p : Page) : Outcome :=
  let '(_, m, t) := c p.1 in
  let '(r, rt) := room_callbacks (callbacks t) p.2 in
  {| page := (m, r); manager_trace := t; room_trace := rt |}.

Definition page_event (e : Event) (p : Page) : Outcome := with_manager (step e) p.

Definition stop_if_present (s : option MediaStream) : list RoomEffect :=
  match s with
  | Some stream => [feed_effect (stop_tracks stream)]
  | None => []
  end.





(** Events of the manager reaching a mounted page one after the other. *)
Fixpoint page_run (es : list Event) (p : Page) : Outcome :=
  match es with
  | [] => {| page := p; manager_trace := []; room_trace := [] |}
  | e :: rest =>
      let o1 := page_event e p in
      let o2 := page_run rest (page o1) in
      {| page := page o2;
         manager_trace := manager_trace o1 ++ manager_trace o2;
         room_trace := room_trace o1 ++ room_trace o2 |}
  end.

(** The component as [useState] initialises it. *)
Definition mounted_room : Room :=
  {| callStatus := fs_inactive; localStream := None; remoteStreams := [];
     feed := mounted_feed; screenIsShared := false;
     isScreenSelectorOpen := false |}.

(** The keys of [remoteStreams] are distinct and each stream sits under its
    own id. *)
Definition streams_keyed (l : RemoteStreams) : Prop :=
  NoDup l.*1 /\ Forall (fun kv => stream_id kv.2 = kv.1) l.

(** ** More concrete sessions *)

(** The socket has been created and has not opened yet. *)
Definition connecting_manager : Manager :=
  state_of (run [CallInitSignalingConnection] fresh_manager).

(** The socket of [joined_manager]. *)
Definition joined_ws : WebSocket :=
  {| readyState := OPEN; onmessage := HandleWsMessage; onclose := true |}.

(** A call whose first offer has been answered. *)
Definition answered_manager : Manager :=
  state_of (run (joining ++ [offer_with []]) fresh_manager).

Definition answered_pc : RTCPeerConnection :=
  {| onicecandidate := true; onconnectionstatechange := true;
     ontrack := true; onnegotiationneeded := true;
     getTransceivers := [0; 1];
     localDescription := Some ("answer", "v=0 answer") |}.

(** A call whose offer had four transceivers: index 2 is stored for the
    screen video. *)
Definition sharing_manager : Manager :=
  state_of (run (joining ++ [offer_with [recvonly; recvonly]]) fresh_manager).

(** A display stream without any track. *)
Definition empty_display : MediaStream :=
  {| stream_id := "local-display"; getVideoTracks := [];
     getAudioTracks := [] |}.

(** A browser in which [replaceTrack] rejects. *)
Definition no_replace : Browser :=
  {| newPeerConnection_ok := true;
     setRemoteDescription_res := Some [];
     createAnswer_res := Some "v=0 answer";
     createOffer_res := Some "v=0 offer";
     setLocalDescription_ok := true;
     addIceCandidate_ok := true;
     replaceTrack_ok := false;
     setParameters_ok := true |}.

(** The camera stream of another participant; the server names it by the
    participant's id. *)
Definition peer_camera : MediaStream :=
  {| stream_id := "123e4567-e89b-42d3-a456-426614174000";
     getVideoTracks := [{| trackId := 11; contentHint := None |}];
     getAudioTracks := [{| trackId := 12; contentHint := None |}] |}.

(** A page that shows [peer_camera]. *)
Definition room_with_peer : Room :=
  set_remoteStreams [(stream_id peer_camera, peer_camera)] mounted_room.

(** ** Proof automation

    [mred] unfolds the monad and the browser operations and reduces field
    reads through field writes; [mcases] then splits on the innermost
    undecided test until the run is a concrete triple. *)

Ltac mred :=
  unfold mbind, M_bind, mret, M_ret, get, modify, emit, throw, try_catch,
         update_ws, update_pc, update_transceiver, sendMessage, ws_is_open,
         new_RTCPeerConnection, addTrack, attach_transceivers,
         setRemoteDescription, createAnswer, createOffer, setLocalDescription,
         addIceCandidate, replaceTrack, setParameters, installed,
         log_message in *;
  cbn [state_of trace_of result_of fst snd app
       ws pc roomId clientId userName screenShareVideoTransceiver
       screenShareAudioTransceiver exited pendingStreams
       pendingScreenShareIds heap
       set_ws set_pc set_screenShareVideoTransceiver
       set_screenShareAudioTransceiver set_exited set_pendingStreams
       set_pendingScreenShareIds set_heap
       negb fmap option_fmap option_map option_bind default from_option id
       readyState onmessage onclose
       with_onmessage with_readyState with_onclose
       onicecandidate onconnectionstatechange ontrack onnegotiationneeded
       getTransceivers localDescription
       with_handlers with_onnegotiationneeded with_transceivers
       with_localDescription compose] in *.

Ltac use_known :=
  repeat match goal with
         | H : ?x = _ |- context [match ?x with _ => _ end] => rewrite H
         | H : ?x = _ |- context [_ <$> ?x] => rewrite H
         end.

Ltac inner_case :=
  match goal with
  | |- context [match ?x with _ => _ end] =>
      lazymatch x with
      | context [match _ with _ => _ end] => fail
      | negb ?b => destruct b eqn:?
      | _ <$> ?o => destruct o eqn:?
      | _ => destruct x eqn:?
      end
  end.

Ltac mcases :=
  mred; use_known; mred; try done;
  repeat (inner_case; mred; use_known; mred; simplify_eq; try done).

Ltac not_in_trace :=
  let H := fresh in
  intros H;
  repeat (apply elem_of_cons in H as [H | H]; [discriminate H |]);
  by apply elem_of_nil in H.

Ltac index_in_range :=
  exfalso;
  match goal with
  | Hp : pc _ = Some _, Hn : _ !! _ = None, Hl : Nat.leb _ _ = true |- _ =>
      apply lookup_ge_None in Hn; apply Nat.leb_le in Hl;
      rewrite Hp in Hl; cbn in Hl; lia
  end.

Ltac split_trace before :=
  repeat (destruct before as [| ? before];
          [ simplify_eq/= | simplify_eq/= ]).

Ltac unfold_handlers :=
  unfold step, dispatch, initSignalingConnection, connect, startScreenShare,
         stopScreenShare, cleanup, handleIceCandidate,
         handleConnectionStateChange, handleTrack, handleNegotiationNeeded,
         negotiation_try, handleWsMessage, wsMessage_switch,
         description_json, disconnect in *.

Ltac split_lookups :=
  repeat match goal with
         | H : delete _ _ !! _ = Some _ |- _ =>
             apply lookup_delete_Some in H as [? H]
         | H : <[_ := _]> _ !! _ = Some _ |- _ =>
             apply lookup_insert_Some in H as [[? ?] | [? H]]
         end.

Ltac by_chars :=
  let c := fresh "c" in
  intros c; destruct c as [[] [] [] [] [] [] [] []]; vm_compute; congruence.



Ltac split_membership :=
  repeat match goal with
         | H : _ \/ _ |- _ => destruct H as [H | H]
         | H : _ /\ _ |- _ => destruct H
         | H : False |- _ => destruct H
         end.

(** [settle] rewrites a known value into the tests left in the hypotheses;
    [settle_maps] and [restore_maps] close what is left about the two maps;
    [room_red] reduces the reads and writes of the page's state. *)

Ltac settle :=
  repeat match goal with
         | H : ?x = _, H' : context [match ?x with _ => _ end] |- _ =>
             rewrite H in H'
         end;
  try done; try congruence.

Ltac reflect_all :=
  repeat match goal with
         | H : bool_decide _ = true |- _ => apply bool_decide_eq_true in H
         | H : bool_decide _ = false |- _ => apply bool_decide_eq_false in H
         end.

Ltac settle_maps :=
  reflect_all;
  try (exfalso;
       match goal with
       | H : ~ is_Some (<[?k := _]> _ !! ?k) |- _ =>
           apply H; rewrite lookup_insert_eq; by eexists
       | H : is_Some (delete ?k _ !! ?k) |- _ =>
           rewrite lookup_delete_eq in H; by destruct H
       | H : delete ?k _ !! ?k = Some _ |- _ =>
           rewrite lookup_delete_eq in H; discriminate H
       | H : <[?k := _]> _ !! ?k = None |- _ =>
           rewrite lookup_insert_eq in H; discriminate H
       | H : is_Some ?x, H' : ?x = None |- _ =>
           rewrite H' in H; by destruct H
       end);
  try first [ by apply delete_insert_id | by apply delete_id
            | apply lookup_insert_eq | done ].

Ltac restore_maps :=
  repeat match goal with
         | H : context [delete ?k (<[?k := _]> _)] |- _ =>
             rewrite delete_insert_id in H by done
         | |- context [delete ?k (<[?k := _]> _)] =>
             rewrite delete_insert_id by done
         | H : context [<[?k := _]> _ !! ?k] |- _ =>
             rewrite lookup_insert_eq in H
         end;
  simplify_eq.

Ltac room_red :=
  cbn [callbacks sent omap list_omap room_callbacks room_callback
       feed_callback feed_status page manager_trace room_trace fst snd app
       callStatus localStream remoteStreams feed screenIsShared
       isScreenSelectorOpen set_callStatus set_localStream set_remoteStreams
       set_feed set_screenIsShared set_isScreenSelectorOpen
       screenShare speakerLayoutOverride share_stream share_peerId
       fmap list_fmap option_fmap option_map stop_if_present] in *.

(** ** The event loop, one event at a time *)

Lemma step_returns (e : Event) (m : Manager) : result_of (step e m) = Ret tt.
Proof.
  unfold step, try_catch, emit, result_of.
  destruct (dispatch e m) as [[[[] | ex] m'] t]; reflexivity.
Qed.

Lemma run_cons (e : Event) (es : list Event) (m : Manager) :
  run (e :: es) m
  = (result_of (run es (state_of (step e m))),
     state_of (run es (state_of (step e m))),
     trace_of (step e m) ++ trace_of (run es (state_of (step e m)))).
Proof.
  pose proof (step_returns e m) as Hret.
  cbn [run]. unfold mbind, M_bind.
  destruct (step e m) as [[r m1] t1]. cbn in Hret. subst r.
  cbn [state_of trace_of result_of fst snd].
  destruct (run es m1) as [[r2 m2] t2]. reflexivity.
Qed.



(** ** Stream identifiers: a screen id is never a UUID *)

Lemma matches_all_chars (P : ascii -> bool) (classes : list (ascii -> bool)) :
  Forall (fun cl => forall c, cl c = true -> P c = true) classes ->
  forall s, matches classes s = true -> all_chars P s = true.
Proof.
  induction 1 as [| cl classes Hcl _ IH]; intros [| c rest] Hm;
    cbn in *; try done.
  apply andb_prop in Hm as [Hc Hrest].
  by rewrite (Hcl c Hc), (IH rest Hrest).
Qed.

Lemma is_hex_uuid_char c : is_hex c = true -> uuid_char c = true.
Proof. revert c. by_chars. Qed.
Lemma is_dash_uuid_char c : is_dash c = true -> uuid_char c = true.
Proof. revert c. by_chars. Qed.
Lemma is_version_uuid_char c : is_version c = true -> uuid_char c = true.
Proof. revert c. by_chars. Qed.
Lemma is_variant_uuid_char c : is_variant c = true -> uuid_char c = true.
Proof. revert c. by_chars. Qed.
Lemma is_zero_uuid_char c : is_zero c = true -> uuid_char c = true.
Proof. revert c. by_chars. Qed.
Lemma is_f_uuid_char c : is_f c = true -> uuid_char c = true.
Proof. revert c. by_chars. Qed.

Lemma isValidUUID_chars (s : string) :
  isValidUUID s = true -> all_chars uuid_char s = true.
Proof.
  unfold isValidUUID. intros H.
  apply orb_prop in H as [H | H]; [apply orb_prop in H as [H | H] |];
    revert H; apply matches_all_chars;
    repeat (constructor;
            [first [ exact is_hex_uuid_char | exact is_dash_uuid_char
                   | exact is_version_uuid_char | exact is_variant_uuid_char
                   | exact is_zero_uuid_char | exact is_f_uuid_char ] |]);
    constructor.
Qed.

Lemma includes_screen_chars (s : string) :
  includes s "screen" = true -> all_chars uuid_char s = false.
Proof.
  induction s as [| c rest IH]; [discriminate |].
  cbn [includes all_chars]. intros H.
  apply orb_prop in H as [H | H].
  - cbn [String.prefix] in H. destruct (ascii_dec "s" c) as [<- | ?];
      [reflexivity | discriminate].
  - rewrite (IH H). apply andb_false_r.
Qed.

(** An id that contains "screen" fails [isValidUUID]: [handleTrack] buffers
    such a stream whenever its owner is not known. *)
Lemma screen_id_not_uuid (s : string) :
  includes s "screen" = true -> isValidUUID s = false.
Proof.
  intros Hs. destruct (isValidUUID s) eqn:Hu; [| reflexivity].
  apply isValidUUID_chars in Hu. apply includes_screen_chars in Hs.
  congruence.
Qed.

(** ** Invariants of the event loop *)

Lemma step_disjoint (e : Event) (m : Manager) :
  disjoint_buffers m -> disjoint_buffers (state_of (step e m)).
Proof.
  intros Hd. destruct e; unfold_handlers.
  all: try (mcases; exact Hd).
  all: mcases; try exact Hd.
  all: unfold disjoint_buffers in *;
    cbn [pendingStreams pendingScreenShareIds];
    intros k [[? Hk1] [? Hk2]]; mred;
    split_lookups; simplify_eq;
    first [ congruence | eapply Hd; split; eexists; eassumption ].
Qed.

Lemma run_disjoint (es : list Event) (m : Manager) :
  disjoint_buffers m -> disjoint_buffers (state_of (run es m)).
Proof.
  revert m. induction es as [| e es IH]; intros m Hd.
  - exact Hd.
  - rewrite run_cons. cbn [state_of fst snd].
    apply IH, step_disjoint, Hd.
Qed.

Lemma new_manager_disjoint (room client user : string) :
  disjoint_buffers (new_RoomConnectionManager room client user).
Proof.
  intros s [[x Hx] _]. cbn in Hx. by rewrite lookup_empty in Hx.
Qed.




Lemma step_refs_valid (e : Event) (m : Manager) :
  refs_valid m -> refs_valid (state_of (step e m)).
Proof.
  intros Hv. destruct e; unfold_handlers.
  all: try (mcases; exact Hv).
  all: mcases; try exact Hv.
  all: unfold refs_valid in *; cbn [pc heap]; mred.
  all: intros q Hq; simplify_eq;
    cbn [getTransceivers fresh_pc with_handlers with_transceivers
         with_localDescription with_onnegotiationneeded];
    try (match goal with
         | H : pc _ = Some ?r |- _ =>
             pose proof (Hv r H) as Hr; rewrite Forall_forall in Hr
         end);
    apply Forall_forall; intros x Hx;
    rewrite ?length_alter, ?length_app, ?length_fmap; cbn [length];
    rewrite ?elem_of_app, ?elem_of_seq, ?elem_of_nil in Hx;
    rewrite ?length_app, ?length_fmap in Hx; cbn [length] in Hx;
    split_membership;
    first [ lia | specialize (Hr _ Hx); lia ].
Qed.

Lemma run_refs_valid (es : list Event) (m : Manager) :
  refs_valid m -> refs_valid (state_of (run es m)).
Proof.
  revert m. induction es as [| e es IH]; intros m Hv.
  - exact Hv.
  - rewrite run_cons. cbn [state_of fst snd].
    apply IH, step_refs_valid, Hv.
Qed.

Lemma new_manager_refs_valid (room client user : string) :
  refs_valid (new_RoomConnectionManager room client user).
Proof.
  intros p Hp. discriminate Hp.
Qed.

(** Only an inbound offer assigns [screenShareVideoTransceiver]. *)
Lemma step_keeps_video_transceiver (e : Event) (m : Manager) :
  not_offer e = true ->
  screenShareVideoTransceiver (state_of (step e m))
  = screenShareVideoTransceiver m.
Proof.
  intros Hn. destruct e; try discriminate Hn; unfold_handlers; mcases.
Qed.

Lemma run_keeps_video_transceiver (es : list Event) (m : Manager) :
  Forall (fun e => not_offer e = true) es ->
  screenShareVideoTransceiver (state_of (run es m))
  = screenShareVideoTransceiver m.
Proof.
  revert m. induction es as [| e es IH]; intros m Hall.
  - reflexivity.
  - apply Forall_cons in Hall as [He Hall].
    rewrite run_cons. cbn [state_of fst snd].
    by rewrite (IH _ Hall), (step_keeps_video_transceiver e m He).
Qed.

(** ** Correlation of a screen stream with its owner *)










(** ** The two pending maps *)

(** Counterexample to claim C2 as stated: the owner of "screen-7" is
    announced, the stream arrives (the correlation fires once), and a second
    track event of the same stream arrives, as it does for a stream with a
    video and an audio track.  Both facts have been received, yet the id is
    a key of [pendingStreams]. *)
Lemma duplicate_track_counterexample :
  screen_shares
    (trace_of (run [CallInitSignalingConnection; WsOpen;
                    CallConnect camera (cooperative []);
                    WsMessage (Some (InPeerScreenShare "screen-7" "peer-2"))
                      (cooperative []);
                    PcTrack [remote_screen];
                    PcTrack [remote_screen]] fresh_manager))
  = [("peer-2", remote_screen)]
  /\ pendingStreams
       (state_of (run [CallInitSignalingConnection; WsOpen;
                       CallConnect camera (cooperative []);
                       WsMessage (Some (InPeerScreenShare "screen-7" "peer-2"))
                         (cooperative []);
                       PcTrack [remote_screen];
                       PcTrack [remote_screen]] fresh_manager))
     !! "screen-7" = Some remote_screen.
Proof.
  split; reflexivity.
Qed.

(** Claim C2, amended.  After every sequence of events on a new manager
    (inbound track events, [peerScreenShare] and [peerScreenShareStop]
    messages, and every other event or method call), no stream id is a key
    of both [pendingStreams] and [pendingScreenShareIds].  When a track
    event arrives while the owner of its stream is buffered, or a
    [peerScreenShare] message arrives while its stream is buffered,
    [onPeerScreenShare] fires at once with that owner and stream and
    afterwards the id is a key of neither map. *)
Theorem pending_buffers_disjoint :
  (forall (room client user : string) (es : list Event),
     disjoint_buffers
       (state_of (run es (new_RoomConnectionManager room client user))))
  /\ (forall (m : Manager) (stream : MediaStream) (owner : string),
        disjoint_buffers m ->
        pendingScreenShareIds m !! stream_id stream = Some owner ->
        let r := handleTrack [stream] m in
        screen_shares (trace_of r) = [(owner, stream)]
        /\ pendingStreams (state_of r) !! stream_id stream = None
        /\ pendingScreenShareIds (state_of r) !! stream_id stream = None)
  /\ (forall (m : Manager) (s owner : string) (stream : MediaStream)
             (br : Browser),
        disjoint_buffers m ->
        is_Some (pc m) ->
        pendingStreams m !! s = Some stream ->
        let r := handleWsMessage (Some (InPeerScreenShare s owner)) br m in
        screen_shares (trace_of r) = [(owner, stream)]
        /\ pendingStreams (state_of r) !! s = None
        /\ pendingScreenShareIds (state_of r) !! s = None).
Proof.
  split; [| split].
  - intros room client user es.
    apply run_disjoint, new_manager_disjoint.
  - intros m stream owner Hd Howner r. subst r.
    assert (Hfree : pendingStreams m !! stream_id stream = None).
    { destruct (pendingStreams m !! stream_id stream) eqn:Hs; [| done].
      exfalso. apply (Hd (stream_id stream)). split; by eexists. }
    unfold handleTrack. mcases; cbn [lookup list_lookup] in *; simplify_eq;
      (split; [reflexivity | split; [done | apply lookup_delete_eq]]).
  - intros m s owner stream br Hd [p Hp] Hstream r. subst r.
    assert (Hfree : pendingScreenShareIds m !! s = None).
    { destruct (pendingScreenShareIds m !! s) eqn:Hs; [| done].
      exfalso. apply (Hd s). split; by eexists. }
    unfold handleWsMessage, wsMessage_switch. mcases;
      (split; [reflexivity | split; [apply lookup_delete_eq | done]]).
Qed.

Lemma pending_buffers_disjoint_witness :
  disjoint_buffers announced_manager
  /\ pendingScreenShareIds announced_manager !! stream_id remote_screen
     = Some "peer-2"
  /\ screen_shares (trace_of (handleTrack [remote_screen] announced_manager))
     = [("peer-2", remote_screen)].
Proof.
  destruct pending_buffers_disjoint as (_ & Htrack & _).
  assert (Hd : disjoint_buffers announced_manager).
  { intros s [[x Hx] _].
    change (pendingStreams announced_manager)
      with (∅ : gmap string MediaStream) in Hx.
    by rewrite lookup_empty in Hx. }
  assert (Howner : pendingScreenShareIds announced_manager
                     !! stream_id remote_screen = Some "peer-2")
    by reflexivity.
  split; [exact Hd |]. split; [exact Howner |].
  apply (Htrack announced_manager remote_screen "peer-2" Hd Howner).
Defined.

(** ** disconnect *)

Lemma disconnect_when_exited (m : Manager) :
  exited m = true -> disconnect m = (Ret tt, m, []).
Proof.
  intros He. unfold disconnect. mred. rewrite He. reflexivity.
Qed.

Lemma disconnect_sets_exited (m : Manager) :
  exited (state_of (disconnect m)) = true.
Proof.
  unfold disconnect. mcases.
Qed.

Lemma disconnect_returns (m : Manager) :
  result_of (disconnect m) = Ret tt.
Proof.
  unfold disconnect. mcases.
Qed.

(** Claim C3.  [disconnect()] is idempotent: from every state, two calls in
    a row leave the same state and the same trace of effects (envelopes,
    callbacks, everything else) as one call, both when run back to back and
    when issued as two events of the loop; and a call made while [exited] is
    already true changes nothing, sends nothing and fires no callback. *)
Theorem disconnect_idempotent (m : Manager) :
  (disconnect;; disconnect) m = disconnect m
  /\ run [CallDisconnect; CallDisconnect] m = run [CallDisconnect] m
  /\ (exited m = true -> disconnect m = (Ret tt, m, [])).
Proof.
  split; [| split].
  - unfold disconnect. mcases.
  - unfold run, step, dispatch, disconnect. mcases.
  - apply disconnect_when_exited.
Qed.

Lemma disconnect_idempotent_witness :
  exited idle_manager = true
  /\ disconnect idle_manager = (Ret tt, idle_manager, []).
Proof.
  split; [reflexivity |].
  apply (disconnect_idempotent idle_manager). reflexivity.
Defined.

(** Claim C4.  When the signaling socket is open, [disconnect()] neither
    closes nor drops it: the [ws] field still holds a socket, its ready state
    is still [OPEN], its close handler is untouched (only [onmessage] goes
    back to a logging handler), and no socket is closed or created.  A following [connect()] therefore passes the precondition
    check (it does not report "Signaling server not connected") and opens no
    new socket; when the browser creates the peer connection and the local
    stream has a video and an audio track, it ends with a live peer
    connection, [exited = false], one [join] envelope and no callback. *)
Theorem disconnect_preserves_signaling (m : Manager) :
  ws_is_open m = true ->
  let d := disconnect m in
  ws_is_open (state_of d) = true
  /\ readyState <$> ws (state_of d) = readyState <$> ws m
  /\ onclose <$> ws (state_of d) = onclose <$> ws m
  /\ (WsClose ∉ trace_of d)
  /\ (WsNew ∉ trace_of d)
  /\ forall (localStream : MediaStream) (br : Browser),
       let c := connect localStream br (state_of d) in
       (Call (onError "Signaling server not connected") ∉ trace_of c)
       /\ (WsNew ∉ trace_of c)
       /\ (newPeerConnection_ok br = true ->
           is_Some (getVideoTracks localStream !! 0%nat) ->
           is_Some (getAudioTracks localStream !! 0%nat) ->
           result_of c = Ret tt
           /\ is_Some (pc (state_of c))
           /\ exited (state_of c) = false
           /\ sent (trace_of c)
              = [{| type := "join"; msg_clientId := clientId m;
                    msg_roomId := roomId m;
                    payload := [("name", userName m)] |}]
           /\ callbacks (trace_of c) = []).
Proof.
  intros Hopen d. subst d.
  split; [unfold disconnect; mcases |].
  split; [unfold disconnect; mcases |].
  split; [unfold disconnect; mcases |].
  split; [unfold disconnect; mcases; not_in_trace |].
  split; [unfold disconnect; mcases; not_in_trace |].
  intros localStream br c. subst c.
  split; [unfold connect, disconnect; mcases; not_in_trace |].
  split; [unfold connect, disconnect; mcases; not_in_trace |].
  intros Hctor [video Hvideo] [audio Haudio].
  unfold connect, disconnect. repeat split; mcases.
Qed.

Lemma disconnect_preserves_signaling_witness :
  ws_is_open joined_manager = true
  /\ ws_is_open (state_of (disconnect joined_manager)) = true
  /\ is_Some (pc (state_of (connect camera (cooperative [])
                              (state_of (disconnect joined_manager))))).
Proof.
  assert (Hopen : ws_is_open joined_manager = true) by reflexivity.
  destruct (disconnect_preserves_signaling joined_manager Hopen)
    as (Hstill & _ & _ & _ & _ & Hconnect).
  split; [exact Hopen |]. split; [exact Hstill |].
  destruct (Hconnect camera (cooperative [])) as (_ & _ & Hlive).
  apply Hlive; [reflexivity | eexists; reflexivity | eexists; reflexivity].
Defined.

(** ** Inbound offers *)

(** Counterexample to claim C5 as stated: the peer connection exists and the
    socket is open, but the browser rejects the remote description of the
    offer; no [answer] envelope is sent. *)
Lemma offer_without_answer_counterexample :
  is_Some (pc joined_manager)
  /\ ws_is_open joined_manager = true
  /\ sent_of_type "answer"
       (trace_of (handleWsMessage (Some (InOffer "v=0 bad")) rejecting
                    joined_manager)) = [].
Proof.
  split; [eexists; reflexivity |]. split; reflexivity.
Qed.

(** Claim C5, amended.  For an inbound offer handled while the peer
    connection exists and the socket is open: when the three negotiation
    steps (set remote description, create answer, set local description)
    succeed, exactly one envelope is sent, it is an [answer] carrying the
    session's [clientId] and [roomId], and the renegotiation handler ends up
    installed; when one of the steps throws, no envelope is sent and the
    handler is not installed by this offer.  In every case the installation
    of [onnegotiationneeded] comes after the [answer] has been sent. *)
Theorem offer_answered_once (m : Manager) (sdp : string) (br : Browser) :
  is_Some (pc m) ->
  ws_is_open m = true ->
  let r := handleWsMessage (Some (InOffer sdp)) br m in
  (forall (ds : list Direction) (ans : string),
     setRemoteDescription_res br = Some ds ->
     createAnswer_res br = Some ans ->
     setLocalDescription_ok br = true ->
     sent (trace_of r)
     = [{| type := "answer"; msg_clientId := clientId m;
           msg_roomId := roomId m;
           payload := [("type", "answer"); ("sdp", ans)] |}]
     /\ installed onnegotiationneeded (state_of r) = true)
  /\ (setRemoteDescription_res br = None
      \/ createAnswer_res br = None
      \/ setLocalDescription_ok br = false ->
      sent (trace_of r) = []
      /\ (Pc (pc_set_onnegotiationneeded true) ∉ trace_of r)
      /\ installed onnegotiationneeded (state_of r)
         = installed onnegotiationneeded m)
  /\ (forall before after : list Effect,
        trace_of r = before ++ Pc (pc_set_onnegotiationneeded true) :: after ->
        exists a : SignalMessage, Send a ∈ before /\ type a = "answer").
Proof.
  intros [p Hp] Hws r. subst r.
  unfold handleWsMessage, wsMessage_switch, description_json.
  split; [| split].
  - intros ds ans Hr Ha Hl. mcases; index_in_range.
  - intros Hfail. mcases; try (split; [done | split; [not_in_trace | done]]);
      destruct Hfail as [? | [? | ?]]; congruence.
  - intros before after. mcases; intros Heq; split_trace before;
      eexists;
      (split;
       [ repeat first [apply list_elem_of_here | apply list_elem_of_further]
       | reflexivity ]).
Qed.

Lemma offer_answered_once_witness :
  is_Some (pc joined_manager)
  /\ ws_is_open joined_manager = true
  /\ sent (trace_of (handleWsMessage (Some (InOffer "v=0 offer"))
                       (cooperative [recvonly; recvonly]) joined_manager))
     = [{| type := "answer"; msg_clientId := "client-1";
           msg_roomId := "room-1";
           payload := [("type", "answer"); ("sdp", "v=0 answer")] |}].
Proof.
  assert (Hpc : is_Some (pc joined_manager)) by (eexists; reflexivity).
  assert (Hws : ws_is_open joined_manager = true) by reflexivity.
  destruct (offer_answered_once joined_manager "v=0 offer"
              (cooperative [recvonly; recvonly]) Hpc Hws) as (Hgood & _ & _).
  split; [exact Hpc |]. split; [exact Hws |].
  apply (Hgood [recvonly; recvonly] "v=0 answer"); reflexivity.
Defined.

(** ** Screen-share transceivers *)

(** The state right after an inbound offer whose remote description was
    accepted, whatever happens to the answer afterwards. *)
Lemma offer_state (m : Manager) (p : RTCPeerConnection)
    (sdp : string) (br : Browser) (ds : list Direction) :
  let after := state_of (handleWsMessage (Some (InOffer sdp)) br m) in
  let transceivers := getTransceivers p ++ seq (length (heap m)) (length ds) in
  let allocated := heap m ++ ((fun d => new_transceiver d None) <$> ds) in
  pc m = Some p ->
  setRemoteDescription_res br = Some ds ->
  getTransceivers <$> pc after = Some transceivers
  /\ if Nat.leb 4 (length transceivers)
     then exists video audio : TransceiverRef,
            transceivers !! 2%nat = Some video
            /\ transceivers !! 3%nat = Some audio
            /\ screenShareVideoTransceiver after = Some video
            /\ screenShareAudioTransceiver after = Some audio
            /\ heap after
               = alter (with_direction sendonly) video
                   (alter (with_direction sendonly) audio allocated)
     else screenShareVideoTransceiver after = screenShareVideoTransceiver m
          /\ screenShareAudioTransceiver after = screenShareAudioTransceiver m
          /\ heap after = allocated.
Proof.
  intros after transceivers allocated Hp Hds.
  subst after transceivers allocated.
  unfold handleWsMessage, wsMessage_switch, description_json.
  split.
  - mcases; by rewrite length_fmap.
  - mcases; rewrite ?length_fmap in *; try congruence;
      try (exfalso;
           match goal with
           | Hn : ?l !! _ = None, Hl : Nat.leb _ (length ?l) = true |- _ =>
               apply lookup_ge_None in Hn; apply Nat.leb_le in Hl; lia
           end);
      try (repeat split; done);
      try (do 2 eexists; repeat split; done).
Qed.

Lemma sendonly_after_alter (h : list RTCRtpTransceiver) (a b i : nat) :
  i < length h ->
  i = a \/ i = b ->
  direction <$> alter (with_direction sendonly) a
                  (alter (with_direction sendonly) b h) !! i
  = Some sendonly.
Proof.
  intros Hi Hab.
  destruct (lookup_lt_is_Some_2 h i Hi) as [x Hx].
  destruct (decide (i = a)) as [-> | Hna].
  - rewrite list_lookup_alter_eq.
    destruct (decide (a = b)) as [-> | Hnb].
    + by rewrite list_lookup_alter_eq, Hx.
    + by rewrite list_lookup_alter_ne, Hx.
  - destruct Hab as [? | ->]; [done |].
    rewrite list_lookup_alter_ne by done.
    by rewrite list_lookup_alter_eq, Hx.
Qed.

Lemma startScreenShare_unavailable
    (m : Manager) (stream : MediaStream) (br : Browser) :
  screenShareVideoTransceiver m = None ->
  startScreenShare stream br m
  = (Ret tt, m, [Console error "No screen share video transceiver available"]).
Proof.
  intros Hnone. unfold startScreenShare. mcases.
Qed.

Lemma startScreenShare_replaces (m : Manager) (video : TransceiverRef)
    (stream : MediaStream) (track : MediaStreamTrack) (br : Browser) :
  screenShareVideoTransceiver m = Some video ->
  getVideoTracks stream !! 0%nat = Some track ->
  replaceTrack_ok br = true ->
  let r := startScreenShare stream br m in
  result_of r = Ret tt
  /\ exists screenTrack : MediaStreamTrack,
       trackId screenTrack = trackId track
       /\ replaced (trace_of r) = [(video, screenTrack)]
       /\ (video < length (heap m) ->
           senderTrack <$> heap (state_of r) !! video
           = Some (Some screenTrack))
       /\ forall i : nat,
            i <> video -> heap (state_of r) !! i = heap m !! i.
Proof.
  intros Hvideo Htrack Hok r. subst r. unfold startScreenShare.
  split; [mcases |].
  mcases;
    match goal with
    | |- context [sender_replaceTrack _ ?t] => exists t
    end;
    (split; [reflexivity |]; split; [reflexivity |]; split;
     [ intros Hlt; destruct (lookup_lt_is_Some_2 _ _ Hlt) as [x Hx];
       rewrite ?list_lookup_alter_eq, Hx; reflexivity
     | intros i Hi; by rewrite ?list_lookup_alter_ne ]).
Qed.

(** Counterexample to claim C6 as stated: the first offer of a call leaves
    the connection with two transceivers, so nothing is stored; a later
    offer brings it to four; the [startScreenShare] call that follows is
    subsequent to the first offer, and it replaces a track and sends a
    [screenShareRequest]. *)
Lemma later_offer_enables_sharing_counterexample :
  (getTransceivers <$> pc (state_of (run (joining ++ [offer_with []])
                                        fresh_manager))) = Some [0; 1]
  /\ screenShareVideoTransceiver
       (state_of (run (joining ++ [offer_with []]) fresh_manager)) = None
  /\ sent (trace_of
             (startScreenShare display (cooperative [])
                (state_of (run (joining
                                ++ [offer_with [];
                                    offer_with [recvonly; recvonly]])
                             fresh_manager))))
     = [{| type := "screenShareRequest"; msg_clientId := "client-1";
           msg_roomId := "room-1"; payload := [] |}].
Proof.
  repeat split; reflexivity.
Qed.

(** What the amended claim leaves out.  The two transceiver fields survive
    [disconnect()]: after a call whose offer had four transceivers and a
    reconnection whose offer has two, the stored video transceiver is the one
    of the closed connection, and [startScreenShare] goes on to use it. *)
Lemma stale_transceiver_after_reconnect :
  getTransceivers <$> pc reconnected_manager = Some [4; 5]
  /\ screenShareVideoTransceiver reconnected_manager = Some 2
  /\ replaced (trace_of (startScreenShare display (cooperative [])
                           reconnected_manager))
     = [(2, {| trackId := 3; contentHint := Some "detail" |})]
  /\ sent_of_type "screenShareRequest"
       (trace_of (startScreenShare display (cooperative [])
                    reconnected_manager))
     <> [].
Proof.
  repeat split; try reflexivity. discriminate.
Qed.

(** Claim C6, amended.  Take a state reached by a new manager in which the
    peer connection exists, and an inbound offer whose remote description is
    accepted; [transceivers] is what the connection holds then.
    With four or more, the transceivers at indices 2 and 3 are stored in the
    two fields and both get direction send-only, and a [startScreenShare]
    whose stream has a video track and whose [replaceTrack] resolves
    replaces the track of the index-2 transceiver and of no other.
    With fewer than four, the offer leaves the two fields as they were; if
    no video transceiver was stored before, every [startScreenShare] call
    made before the next inbound offer returns without throwing, changes
    nothing and sends nothing (it only logs an error). *)
Theorem offer_screen_share_transceivers
    (room client user : string) (pre : list Event) (p : RTCPeerConnection)
    (sdp : string) (br : Browser) (ds : list Direction) :
  let m := state_of (run pre (new_RoomConnectionManager room client user)) in
  let after := state_of (handleWsMessage (Some (InOffer sdp)) br m) in
  let transceivers := getTransceivers p ++ seq (length (heap m)) (length ds) in
  pc m = Some p ->
  setRemoteDescription_res br = Some ds ->
  getTransceivers <$> pc after = Some transceivers
  /\ (4 <= length transceivers ->
      exists video audio : TransceiverRef,
        transceivers !! 2%nat = Some video
        /\ transceivers !! 3%nat = Some audio
        /\ screenShareVideoTransceiver after = Some video
        /\ screenShareAudioTransceiver after = Some audio
        /\ direction <$> heap after !! video = Some sendonly
        /\ direction <$> heap after !! audio = Some sendonly
        /\ forall (stream : MediaStream) (track : MediaStreamTrack)
                  (br' : Browser),
             getVideoTracks stream !! 0%nat = Some track ->
             replaceTrack_ok br' = true ->
             let r := startScreenShare stream br' after in
             result_of r = Ret tt
             /\ exists screenTrack : MediaStreamTrack,
                  trackId screenTrack = trackId track
                  /\ replaced (trace_of r) = [(video, screenTrack)]
                  /\ senderTrack <$> heap (state_of r) !! video
                     = Some (Some screenTrack)
                  /\ forall i : nat,
                       i <> video ->
                       heap (state_of r) !! i = heap after !! i)
  /\ (length transceivers < 4 ->
      screenShareVideoTransceiver after = screenShareVideoTransceiver m
      /\ screenShareAudioTransceiver after = screenShareAudioTransceiver m
      /\ (screenShareVideoTransceiver m = None ->
          forall (es : list Event) (stream : MediaStream) (br' : Browser),
            Forall (fun e => not_offer e = true) es ->
            let later := state_of (run es after) in
            startScreenShare stream br' later
            = (Ret tt, later,
               [Console error "No screen share video transceiver available"]))).
Proof.
  intros m after transceivers Hp Hds.
  assert (Hvalid : refs_valid m)
    by apply run_refs_valid, new_manager_refs_valid.
  specialize (Hvalid p Hp). rewrite Forall_forall in Hvalid.
  destruct (offer_state m p sdp br ds Hp Hds) as [Htrs Hfields].
  fold after transceivers in Htrs, Hfields.
  assert (Hin : forall i r, transceivers !! i = Some r ->
                  r < length (heap m
                              ++ ((fun d => new_transceiver d None) <$> ds))).
  { intros i r Hr. apply list_elem_of_lookup_2 in Hr.
    rewrite length_app, length_fmap.
    apply elem_of_app in Hr as [Hr | Hr].
    - specialize (Hvalid r Hr). lia.
    - apply elem_of_seq in Hr. lia. }
  split; [exact Htrs |]. split.
  - intros Hlen. apply Nat.leb_le in Hlen. rewrite Hlen in Hfields.
    destruct Hfields as (video & audio & H2 & H3 & Hv & Ha & Hheap).
    exists video, audio.
    assert (Hdv : direction <$> heap after !! video = Some sendonly).
    { rewrite Hheap. apply sendonly_after_alter; [by eapply Hin | by left]. }
    assert (Hda : direction <$> heap after !! audio = Some sendonly).
    { rewrite Hheap. apply sendonly_after_alter; [by eapply Hin | by right]. }
    repeat (split; [done |]).
    intros stream track br' Htrack Hok.
    destruct (startScreenShare_replaces after video stream track br'
                Hv Htrack Hok) as (Hret & screenTrack & Hid & Hrep & Hset & Hrest).
    split; [exact Hret |]. exists screenTrack.
    repeat (split; [done |]). split; [| exact Hrest].
    apply Hset. rewrite Hheap, !length_alter. by eapply Hin.
  - intros Hlen.
    assert (Hsmall : Nat.leb 4 (length transceivers) = false)
      by (apply Nat.leb_gt; lia).
    rewrite Hsmall in Hfields. destruct Hfields as (Hv & Ha & _).
    repeat (split; [done |]).
    intros Hnone es stream br' Hes later.
    apply startScreenShare_unavailable. subst later.
    rewrite (run_keeps_video_transceiver es after Hes). congruence.
Qed.

Lemma offer_screen_share_transceivers_witness :
  pc (state_of (run joining fresh_manager)) = Some joined_pc
  /\ setRemoteDescription_res (cooperative [recvonly; recvonly])
     = Some [recvonly; recvonly]
  /\ 4 <= length (getTransceivers joined_pc
                  ++ seq (length (heap (state_of (run joining fresh_manager))))
                       (length [recvonly; recvonly]))
  /\ screenShareVideoTransceiver
       (state_of (handleWsMessage (Some (InOffer "v=0 offer"))
                    (cooperative [recvonly; recvonly])
                    (state_of (run joining fresh_manager))))
     = Some 2.
Proof.
  assert (Hpc : pc (state_of (run joining fresh_manager)) = Some joined_pc)
    by reflexivity.
  assert (Hds : setRemoteDescription_res (cooperative [recvonly; recvonly])
                = Some [recvonly; recvonly]) by reflexivity.
  assert (Hlen : 4 <= length (getTransceivers joined_pc
                    ++ seq (length (heap (state_of (run joining
                                                      fresh_manager))))
                         (length [recvonly; recvonly])))
    by (vm_compute; lia).
  destruct (offer_screen_share_transceivers "room-1" "client-1" "alice"
              joining joined_pc "v=0 offer"
              (cooperative [recvonly; recvonly]) [recvonly; recvonly]
              Hpc Hds) as (_ & Hfour & _).
  destruct (Hfour Hlen) as (video & audio & H2 & _ & Hvideo & _).
  repeat (split; [assumption |]).
  vm_compute in H2. injection H2 as <-. exact Hvideo.
Defined.

(** ** Exceptions during negotiation *)

(** Counterexample to claim C7 as stated: the browser rejects the remote
    description of an inbound offer; the exception is raised, yet no callback
    at all is invoked (so [onError] is not), the peer connection is still
    there and [exited] is still false (so [disconnect()] did not run). *)
Lemma negotiation_failure_counterexample :
  result_of (wsMessage_switch (InOffer "v=0 bad") rejecting joined_manager)
  = Throw RtcError
  /\ callbacks (trace_of (handleWsMessage (Some (InOffer "v=0 bad"))
                            rejecting joined_manager)) = []
  /\ is_Some (pc (state_of (handleWsMessage (Some (InOffer "v=0 bad"))
                              rejecting joined_manager)))
  /\ exited (state_of (handleWsMessage (Some (InOffer "v=0 bad"))
                         rejecting joined_manager)) = false.
Proof.
  repeat split; try reflexivity. eexists; reflexivity.
Qed.

(** Claim C7, amended.  Every exception raised inside the [try] block of
    [handleWsMessage] (setting the remote description, creating the answer,
    setting the local description, adding a candidate) or of
    [handleNegotiationNeeded] (creating the offer, setting the local
    description) is caught by the handler and logged with [console.error] as
    its last effect; the handler returns normally, invokes no callback (in
    particular not [onError]), sends nothing after the failure, does not run
    [disconnect()] (the peer connection is kept and not closed, [exited] is
    unchanged) and leaves the signaling socket as it was. *)
Theorem negotiation_exception_is_logged_only (m : Manager) (br : Browser) :
  is_Some (pc m) ->
  (forall (msg : Inbound) (e : Exn),
     result_of (wsMessage_switch msg br m) = Throw e ->
     let r := handleWsMessage (Some msg) br m in
     result_of r = Ret tt
     /\ last (trace_of r) = Some (Console error "Error in WS message handler: ")
     /\ callbacks (trace_of r) = []
     /\ sent (trace_of r) = []
     /\ (Pc pc_close ∉ trace_of r)
     /\ is_Some (pc (state_of r))
     /\ exited (state_of r) = exited m
     /\ ws (state_of r) = ws m)
  /\ (forall e : Exn,
        result_of (negotiation_try br m) = Throw e ->
        let r := handleNegotiationNeeded br m in
        result_of r = Ret tt
        /\ last (trace_of r)
           = Some (Console error "Error during negotiationneeded handling: ")
        /\ callbacks (trace_of r) = []
        /\ sent (trace_of r) = []
        /\ (Pc pc_close ∉ trace_of r)
        /\ is_Some (pc (state_of r))
        /\ exited (state_of r) = exited m
        /\ ws (state_of r) = ws m).
Proof.
  intros [p Hp]. split.
  - intros msg e. unfold handleWsMessage.
    destruct msg; unfold wsMessage_switch, description_json;
      mcases; intros ?; simplify_eq;
      repeat split; try done; try not_in_trace; by eexists.
  - intros e. unfold handleNegotiationNeeded, negotiation_try, description_json.
    mcases; intros ?; simplify_eq;
      repeat split; try done; try not_in_trace; by eexists.
Qed.

Lemma negotiation_exception_is_logged_only_witness :
  is_Some (pc joined_manager)
  /\ result_of (wsMessage_switch (InOffer "v=0 bad") rejecting joined_manager)
     = Throw RtcError
  /\ callbacks (trace_of (handleWsMessage (Some (InOffer "v=0 bad")) rejecting
                            joined_manager)) = [].
Proof.
  assert (Hpc : is_Some (pc joined_manager)) by (eexists; reflexivity).
  destruct (negotiation_exception_is_logged_only joined_manager rejecting Hpc)
    as [Hmsg _].
  split; [exact Hpc |]. split; [reflexivity |].
  apply (Hmsg (InOffer "v=0 bad") RtcError). reflexivity.
Defined.

(** ** Stop announcements *)




(** ** stopScreenShare *)

(** Counterexample to claim C9 as stated: on a manager whose socket is open,
    [stopScreenShare("client-1")] sends no [peerScreenShareStop] envelope
    whose payload has the id under a [peerId] field. *)
Lemma stopScreenShare_peerId_counterexample :
  ~ (exists msg : SignalMessage,
       sent (trace_of (stopScreenShare "client-1" joined_manager)) = [msg]
       /\ type msg = "peerScreenShareStop"
       /\ field "peerId" (payload msg) = Some "client-1").
Proof.
  intros (msg & Hsent & _ & Hfield).
  vm_compute in Hsent. injection Hsent as <-.
  vm_compute in Hfield. discriminate Hfield.
Qed.

(** Claim C9, amended.  [stopScreenShare(id)] never throws and leaves the
    manager unchanged (in particular it stops no track).  When the socket is
    open its whole trace is one [peerScreenShareStop] envelope that carries
    the session's client and room ids and the payload [{streamId: id}]; when
    the socket is absent or not open, nothing is sent and the drop is
    logged. *)
Theorem stopScreenShare_sends_streamId (m : Manager) (id : string) :
  let r := stopScreenShare id m in
  result_of r = Ret tt
  /\ state_of r = m
  /\ (ws_is_open m = true ->
      trace_of r
      = [Send {| type := "peerScreenShareStop";
                 msg_clientId := clientId m; msg_roomId := roomId m;
                 payload := [("streamId", id)] |}])
  /\ (ws_is_open m = false ->
      trace_of r
      = [Console error
           "Cannot send message, WebSocket is not available. Type: "]).
Proof.
  unfold stopScreenShare.
  repeat split; try intros Hws; mcases.
Qed.

Lemma stopScreenShare_sends_streamId_witness :
  ws_is_open joined_manager = true
  /\ trace_of (stopScreenShare "client-1" joined_manager)
     = [Send {| type := "peerScreenShareStop";
                msg_clientId := "client-1"; msg_roomId := "room-1";
                payload := [("streamId", "client-1")] |}].
Proof.
  split; [reflexivity |].
  apply (stopScreenShare_sends_streamId joined_manager "client-1").
  reflexivity.
Defined.

(** ** connect *)

(** Claim C10.  When the signaling socket is absent or not open,
    [connect(localStream)] reports "Signaling server not connected" through
    [onError] and returns with the manager exactly as it was: no peer
    connection is created, [exited] and both pending maps keep their values,
    and nothing is sent. *)
Theorem connect_without_signaling_is_atomic
    (m : Manager) (localStream : MediaStream) (br : Browser) :
  ws_is_open m = false ->
  connect localStream br m
  = (Ret tt, m, [Call (onError "Signaling server not connected")]).
Proof.
  intros Hclosed. unfold connect. mcases.
Qed.

Lemma connect_without_signaling_is_atomic_witness :
  ws_is_open fresh_manager = false
  /\ connect camera (cooperative []) fresh_manager
     = (Ret tt, fresh_manager,
        [Call (onError "Signaling server not connected")]).
Proof.
  split; [reflexivity |].
  apply (connect_without_signaling_is_atomic fresh_manager camera
           (cooperative [])).
  reflexivity.
Defined.

(** ** Session identity and the state of the socket *)

Lemma step_identity (e : Event) (m : Manager) :
  identity (state_of (step e m)) = identity m
  /\ Forall (fun msg => msg_clientId msg = clientId m
                        /\ msg_roomId msg = roomId m)
       (sent (trace_of (step e m))).
Proof.
  destruct e; unfold_handlers; unfold identity.
  all: mcases; split; try reflexivity; cbn [sent omap list_omap];
    repeat constructor.
Qed.

Lemma sent_app (t1 t2 : list Effect) : sent (t1 ++ t2) = sent t1 ++ sent t2.
Proof. unfold sent. apply omap_app. Qed.

(** No event changes the room id, the client id or the user name the
    manager was built with, and every envelope sent during any run carries
    that client id and that room id. *)
Theorem envelopes_carry_session_identity (es : list Event) (m : Manager) :
  identity (state_of (run es m)) = identity m
  /\ Forall (fun msg => msg_clientId msg = clientId m
                        /\ msg_roomId msg = roomId m)
       (sent (trace_of (run es m))).
Proof.
  revert m. induction es as [| e es IH]; intros m.
  - split; [reflexivity | constructor].
  - rewrite run_cons. cbn [state_of trace_of fst snd].
    destruct (step_identity e m) as [Hid Hsent].
    destruct (IH (state_of (step e m))) as [Hid' Hsent'].
    split; [congruence |].
    rewrite sent_app. apply Forall_app. split; [exact Hsent |].
    unfold identity in Hid. injection Hid as Hr Hc Hu.
    rewrite <- Hr, <- Hc. exact Hsent'.
Qed.

(** While the socket is absent or not open, no event makes the manager send
    anything: [sendMessage] is the only sender and it checks the socket. *)
Theorem nothing_sent_while_socket_not_open (e : Event) (m : Manager) :
  ws_is_open m = false ->
  sent (trace_of (step e m)) = [].
Proof.
  intros Hclosed. destruct e; unfold_handlers; mcases.
Qed.

Lemma nothing_sent_while_socket_not_open_witness :
  ws_is_open connecting_manager = false
  /\ sent (trace_of (step (CallStopScreenShare "client-1")
                       connecting_manager)) = [].
Proof.
  split; [reflexivity |].
  apply (nothing_sent_while_socket_not_open (CallStopScreenShare "client-1")
           connecting_manager).
  reflexivity.
Defined.

(** [connect] needs the socket to have opened: right after
    [initSignalingConnection] it only reports "Signaling server not
    connected" and changes nothing; once the socket's open event has been
    handled, that error is not reported. *)
Theorem connect_needs_opened_socket
    (m : Manager) (localStream : MediaStream) (br : Browser) :
  let created := state_of (initSignalingConnection m) in
  let opened := state_of (step WsOpen created) in
  connect localStream br created
  = (Ret tt, created, [Call (onError "Signaling server not connected")])
  /\ ws_is_open opened = true
  /\ (Call (onError "Signaling server not connected")
      ∉ trace_of (connect localStream br opened)).
Proof.
  unfold_handlers. repeat split; mcases; not_in_trace.
Qed.

Lemma step_exited_mirrors_pc (e : Event) (m : Manager) :
  no_init e = true ->
  exited_mirrors_pc m -> exited_mirrors_pc (state_of (step e m)).
Proof.
  intros Hn Hm. unfold exited_mirrors_pc in *.
  destruct e; try discriminate Hn; unfold_handlers.
  all: mcases; try exact Hm;
    repeat match goal with
           | H : pc ?m = _, Hm : context [pc ?m] |- _ => rewrite H in Hm
           end; try congruence.
Qed.

(** After [initSignalingConnection] on a new manager, and as long as it is
    not called again, [exited] is true exactly when there is no peer
    connection. *)
Theorem exited_flag_mirrors_peer_connection
    (room client user : string) (es : list Event) :
  Forall (fun e => no_init e = true) es ->
  exited_mirrors_pc
    (state_of (run (CallInitSignalingConnection :: es)
                 (new_RoomConnectionManager room client user))).
Proof.
  intros Hes. rewrite run_cons. cbn [state_of fst snd].
  assert (Hstart : exited_mirrors_pc
            (state_of (step CallInitSignalingConnection
                         (new_RoomConnectionManager room client user))))
    by reflexivity.
  revert Hstart.
  generalize (state_of (step CallInitSignalingConnection
                          (new_RoomConnectionManager room client user))).
  induction es as [| e es IH]; intros m Hm.
  - exact Hm.
  - apply Forall_cons in Hes as [He Hes].
    rewrite run_cons. cbn [state_of fst snd].
    apply IH; [exact Hes |]. by apply step_exited_mirrors_pc.
Qed.

Lemma exited_flag_mirrors_peer_connection_witness :
  Forall (fun e => no_init e = true)
    [WsOpen; CallConnect camera (cooperative []); CallDisconnect]
  /\ exited_mirrors_pc
       (state_of (run [CallInitSignalingConnection; WsOpen;
                       CallConnect camera (cooperative []); CallDisconnect]
                    (new_RoomConnectionManager "room-1" "client-1" "alice"))).
Proof.
  assert (Hes : Forall (fun e => no_init e = true)
                  [WsOpen; CallConnect camera (cooperative []);
                   CallDisconnect]) by (repeat constructor).
  split; [exact Hes |].
  exact (exited_flag_mirrors_peer_connection "room-1" "client-1" "alice"
           [WsOpen; CallConnect camera (cooperative []); CallDisconnect] Hes).
Defined.

(** Of all events, only a message that [JSON.parse] rejects and a call of
    [startScreenShare] can let an exception out of their handler; every
    other handler returns normally, whatever the browser does. *)
Theorem handlers_catch_their_exceptions (e : Event) (m : Manager) :
  may_throw e = false -> result_of (dispatch e m) = Ret tt.
Proof.
  intros He. destruct e; try discriminate He; unfold_handlers; mcases.
Qed.

Lemma handlers_catch_their_exceptions_witness :
  may_throw (WsMessage (Some (InOffer "v=0 bad")) rejecting) = false
  /\ result_of (dispatch (WsMessage (Some (InOffer "v=0 bad")) rejecting)
                  joined_manager) = Ret tt.
Proof.
  split; [reflexivity |].
  apply (handlers_catch_their_exceptions
           (WsMessage (Some (InOffer "v=0 bad")) rejecting) joined_manager).
  reflexivity.
Defined.

(** A message that is not valid JSON changes nothing, sends nothing and
    fires no callback.  The two logging handlers parse it and let the
    [SyntaxError] out; [handleWsMessage] does so only when a peer connection
    exists, because its [JSON.parse] stands before the [try] and after the
    test for the peer connection. *)
Theorem malformed_message (m : Manager) (br : Browser) :
  let r := step (WsMessage None br) m in
  state_of r = m
  /\ sent (trace_of r) = []
  /\ callbacks (trace_of r) = []
  /\ (forall w : WebSocket,
        ws m = Some w ->
        trace_of r
        = match onmessage w, pc m with
          | HandleWsMessage, None => []
          | _, _ => [Uncaught SyntaxError]
          end).
Proof.
  unfold_handlers. repeat split; try (intros w Hw); mcases.
Qed.

(** ** connect *)

(** A successful [connect]: with the socket open, a peer connection that
    can be created, and a local stream with a video and an audio track, the
    manager creates the connection, adds the video track and then the audio
    track (two new send-receive transceivers), installs the three handlers
    and [handleWsMessage], clears [exited] and sends one [join] envelope
    with the user name.  The two pending maps and the stored screen-share
    transceivers keep the values of an earlier call. *)
Theorem connect_starts_call (m : Manager) (localStream : MediaStream)
    (br : Browser) (video audio : MediaStreamTrack) :
  ws_is_open m = true ->
  newPeerConnection_ok br = true ->
  getVideoTracks localStream !! 0%nat = Some video ->
  getAudioTracks localStream !! 0%nat = Some audio ->
  let r := connect localStream br m in
  let n := length (heap m) in
  result_of r = Ret tt
  /\ trace_of r
     = [Pc pc_new; Pc (pc_addTrack video); Pc (pc_addTrack audio);
        Send (envelope m "join" [("name", userName m)])]
  /\ pc (state_of r)
     = Some {| onicecandidate := true; onconnectionstatechange := true;
               ontrack := true; onnegotiationneeded := false;
               getTransceivers := [n; S n]; localDescription := None |}
  /\ heap (state_of r)
     = heap m ++ [new_transceiver sendrecv (Some video);
                  new_transceiver sendrecv (Some audio)]
  /\ exited (state_of r) = false
  /\ ws (state_of r) = with_onmessage HandleWsMessage <$> ws m
  /\ pendingStreams (state_of r) = pendingStreams m
  /\ pendingScreenShareIds (state_of r) = pendingScreenShareIds m
  /\ screenShareVideoTransceiver (state_of r) = screenShareVideoTransceiver m
  /\ screenShareAudioTransceiver (state_of r) = screenShareAudioTransceiver m.
Proof.
  intros Hws Hctor Hvideo Haudio r n. subst r n. unfold connect, envelope.
  repeat split; mcases; settle.
  - unfold with_handlers, with_transceivers, fresh_pc.
    cbn [getTransceivers onnegotiationneeded localDescription length app seq].
    rewrite length_app. cbn [length]. by rewrite Nat.add_1_r.
  - by rewrite <- app_assoc.
Qed.

Lemma connect_starts_call_witness :
  ws_is_open idle_manager = true
  /\ newPeerConnection_ok (cooperative []) = true
  /\ getVideoTracks camera !! 0%nat
     = Some {| trackId := 1; contentHint := Some "" |}
  /\ getAudioTracks camera !! 0%nat
     = Some {| trackId := 2; contentHint := None |}
  /\ trace_of (connect camera (cooperative []) idle_manager)
     = [Pc pc_new;
        Pc (pc_addTrack {| trackId := 1; contentHint := Some "" |});
        Pc (pc_addTrack {| trackId := 2; contentHint := None |});
        Send (envelope idle_manager "join" [("name", userName idle_manager)])].
Proof.
  assert (Hws : ws_is_open idle_manager = true) by reflexivity.
  assert (Hctor : newPeerConnection_ok (cooperative []) = true)
    by reflexivity.
  assert (Hvideo : getVideoTracks camera !! 0%nat
                   = Some {| trackId := 1; contentHint := Some "" |})
    by reflexivity.
  assert (Haudio : getAudioTracks camera !! 0%nat
                   = Some {| trackId := 2; contentHint := None |})
    by reflexivity.
  destruct (connect_starts_call idle_manager camera (cooperative []) _ _
              Hws Hctor Hvideo Haudio) as (_ & Htrace & _).
  split; [exact Hws |]. split; [exact Hctor |]. split; [exact Hvideo |].
  split; [exact Haudio |].
  exact Htrace.
Defined.

(** A failed [connect]: with the socket open, when the peer connection
    cannot be created or the local stream lacks a video or an audio track,
    the exception is caught; the page is told "Failed to start call", then
    [disconnect] runs: an [exit] envelope is sent, the status goes to
    inactive, no peer connection is left and the socket goes back to
    logging. *)
Theorem connect_failure_tears_down (m : Manager) (localStream : MediaStream)
    (br : Browser) :
  ws_is_open m = true ->
  newPeerConnection_ok br = false
  \/ getVideoTracks localStream !! 0%nat = None
  \/ getAudioTracks localStream !! 0%nat = None ->
  let r := connect localStream br m in
  result_of r = Ret tt
  /\ callbacks (trace_of r)
     = [onError "Failed to start call"; onStatusChange st_inactive;
        onRemoteStreamStopped]
  /\ sent (trace_of r) = [envelope m "exit" [("peerName", userName m)]]
  /\ exited (state_of r) = true
  /\ pc (state_of r) = None
  /\ ws (state_of r) = with_onmessage LogInactive <$> ws m.
Proof.
  intros Hws Hfail r. subst r. unfold connect, disconnect, envelope.
  repeat split; mcases; settle; destruct Hfail as [? | [? | ?]]; congruence.
Qed.

Lemma connect_failure_tears_down_witness :
  ws_is_open idle_manager = true
  /\ getAudioTracks display !! 0%nat = None
  /\ callbacks (trace_of (connect display (cooperative []) idle_manager))
     = [onError "Failed to start call"; onStatusChange st_inactive;
        onRemoteStreamStopped].
Proof.
  assert (Hws : ws_is_open idle_manager = true) by reflexivity.
  assert (Haudio : getAudioTracks display !! 0%nat = None) by reflexivity.
  destruct (connect_failure_tears_down idle_manager display (cooperative [])
              Hws (or_intror (or_intror Haudio))) as (_ & Hcalls & _).
  split; [exact Hws |]. split; [exact Haudio |].
  exact Hcalls.
Defined.

(** ** disconnect and cleanup *)

(** The first [disconnect] of a call: it logs, sends [exit] with the user
    name if the socket is open, closes the peer connection if there is one,
    then reports the inactive status and the stopped remote stream, in this
    order.  It leaves the socket in place with the logging handler, and it
    does not touch the two pending maps, the stored screen-share
    transceivers or the transceivers themselves. *)
Theorem disconnect_effects (m : Manager) :
  exited m = false ->
  let r := disconnect m in
  trace_of r
  = [Console log "Disconnecting..."]
    ++ (if ws_is_open m
        then [Send (envelope m "exit" [("peerName", userName m)])]
        else [])
    ++ match pc m with Some _ => [Pc pc_close] | None => [] end
    ++ [Call (onStatusChange st_inactive); Call onRemoteStreamStopped]
  /\ exited (state_of r) = true
  /\ pc (state_of r) = None
  /\ ws (state_of r) = with_onmessage LogInactive <$> ws m
  /\ pendingStreams (state_of r) = pendingStreams m
  /\ pendingScreenShareIds (state_of r) = pendingScreenShareIds m
  /\ screenShareVideoTransceiver (state_of r) = screenShareVideoTransceiver m
  /\ screenShareAudioTransceiver (state_of r) = screenShareAudioTransceiver m
  /\ heap (state_of r) = heap m.
Proof.
  intros Hex r. subst r. unfold disconnect, envelope.
  repeat split; mcases.
Qed.

Lemma disconnect_effects_witness :
  exited joined_manager = false
  /\ trace_of (disconnect joined_manager)
     = [Console log "Disconnecting...";
        Send (envelope joined_manager "exit" [("peerName", "alice")]);
        Pc pc_close;
        Call (onStatusChange st_inactive); Call onRemoteStreamStopped].
Proof.
  assert (Hex : exited joined_manager = false) by reflexivity.
  destruct (disconnect_effects joined_manager Hex) as (Htrace & _).
  split; [exact Hex |].
  exact Htrace.
Defined.



(** [cleanup] never throws; it runs [disconnect], then clears [onclose],
    closes the socket if there is one and forgets it.  A second [cleanup]
    does nothing at all, and a later [connect] only reports "Signaling
    server not connected". *)
Theorem cleanup_closes_signaling (m : Manager) :
  let r := cleanup m in
  result_of r = Ret tt
  /\ ws (state_of r) = None
  /\ exited (state_of r) = true
  /\ pc (state_of r) = (if exited m then pc m else None)
  /\ trace_of r
     = trace_of (disconnect m)
       ++ match ws m with Some _ => [WsClose] | None => [] end
  /\ cleanup (state_of r) = (Ret tt, state_of r, [])
  /\ forall (localStream : MediaStream) (br : Browser),
       connect localStream br (state_of r)
       = (Ret tt, state_of r,
          [Call (onError "Signaling server not connected")]).
Proof.
  unfold cleanup, connect, disconnect.
  repeat split; try (intros localStream br); mcases.
Qed.

(** When the socket closes during a call, its [onclose] handler runs
    [disconnect]: nothing is sent (the socket is no longer open), the page
    is told that the call is inactive, the peer connection is gone, and the
    closed socket stays in the [ws] field, so a later [connect] only
    reports "Signaling server not connected". *)
Theorem socket_close_ends_call (m : Manager) (w : WebSocket) :
  ws m = Some w ->
  onclose w = true ->
  exited m = false ->
  let r := step WsClosed m in
  sent (trace_of r) = []
  /\ callbacks (trace_of r) = [onStatusChange st_inactive; onRemoteStreamStopped]
  /\ pc (state_of r) = None
  /\ exited (state_of r) = true
  /\ ws (state_of r)
     = Some {| readyState := CLOSED; onmessage := LogInactive;
               onclose := true |}
  /\ forall (localStream : MediaStream) (br : Browser),
       connect localStream br (state_of r)
       = (Ret tt, state_of r,
          [Call (onError "Signaling server not connected")]).
Proof.
  intros Hw Hclose Hex r. subst r. unfold_handlers. unfold connect.
  repeat split; try (intros localStream br); mcases; settle;
    unfold with_onmessage, with_readyState; cbn [onclose]; by rewrite Hclose.
Qed.

Lemma socket_close_ends_call_witness :
  ws joined_manager = Some joined_ws
  /\ onclose joined_ws = true
  /\ exited joined_manager = false
  /\ callbacks (trace_of (step WsClosed joined_manager))
     = [onStatusChange st_inactive; onRemoteStreamStopped].
Proof.
  assert (Hw : ws joined_manager = Some joined_ws) by reflexivity.
  assert (Hclose : onclose joined_ws = true) by reflexivity.
  assert (Hex : exited joined_manager = false) by reflexivity.
  destruct (socket_close_ends_call joined_manager joined_ws Hw Hclose Hex)
    as (_ & Hcalls & _).
  split; [exact Hw |]. split; [exact Hclose |]. split; [exact Hex |].
  exact Hcalls.
Defined.

(** ** Events of the peer connection *)

(** A change of the connection state: "connected" reports the active
    status and changes nothing; "new" and "connecting" are only logged;
    "disconnected", "failed" and "closed" are logged and then do exactly
    what [disconnect] does. *)
Theorem connection_state_changes (m : Manager) (p : RTCPeerConnection) :
  pc m = Some p ->
  handleConnectionStateChange cs_connected m
  = (Ret tt, m, [Console log "PC Connection update: ";
                 Call (onStatusChange st_active)])
  /\ (forall cs, cs = cs_new \/ cs = cs_connecting ->
        handleConnectionStateChange cs m
        = (Ret tt, m, [Console log "PC Connection update: "]))
  /\ (forall cs, cs = cs_disconnected \/ cs = cs_failed \/ cs = cs_closed ->
        let r := handleConnectionStateChange cs m in
        result_of r = Ret tt
        /\ state_of r = state_of (disconnect m)
        /\ trace_of r
           = Console log "PC Connection update: " :: trace_of (disconnect m)).
Proof.
  intros Hp. unfold handleConnectionStateChange, disconnect.
  split; [mcases |]. split.
  - intros cs [-> | ->]; mcases.
  - intros cs [-> | [-> | ->]]; repeat split; mcases.
Qed.

Lemma connection_state_changes_witness :
  pc joined_manager = Some joined_pc
  /\ handleConnectionStateChange cs_connected joined_manager
     = (Ret tt, joined_manager,
        [Console log "PC Connection update: ";
         Call (onStatusChange st_active)]).
Proof.
  assert (Hp : pc joined_manager = Some joined_pc) by reflexivity.
  destruct (connection_state_changes joined_manager joined_pc Hp)
    as (Hconnected & _).
  split; [exact Hp |].
  exact Hconnected.
Defined.

(** Renegotiation started by the browser: before the first offer has been
    answered the event finds no handler and nothing happens; afterwards,
    when the offer can be created and set, exactly one [offer] envelope
    with the new local description is sent and nothing else changes. *)
Theorem negotiation_needed_sends_offer
    (m : Manager) (p : RTCPeerConnection) (br : Browser) (sdp : string) :
  pc m = Some p ->
  (onnegotiationneeded p = false ->
   step (PcNegotiationNeeded br) m = (Ret tt, m, []))
  /\ (onnegotiationneeded p = true ->
      ws_is_open m = true ->
      createOffer_res br = Some sdp ->
      setLocalDescription_ok br = true ->
      step (PcNegotiationNeeded br) m
      = (Ret tt,
         set_pc (Some (with_localDescription (Some ("offer", sdp)) p)) m,
         [Pc pc_createOffer; Pc (pc_setLocalDescription "offer" sdp);
          Send (envelope m "offer" [("type", "offer"); ("sdp", sdp)])])).
Proof.
  intros Hp. unfold envelope. split.
  - intros Hoff. unfold_handlers. mcases.
  - intros Hon Hws Hoffer Hlocal. unfold_handlers. mcases; settle.
Qed.

Lemma negotiation_needed_sends_offer_witness :
  pc answered_manager = Some answered_pc
  /\ onnegotiationneeded answered_pc = true
  /\ ws_is_open answered_manager = true
  /\ createOffer_res (cooperative []) = Some "v=0 offer"
  /\ setLocalDescription_ok (cooperative []) = true
  /\ step (PcNegotiationNeeded (cooperative [])) answered_manager
     = (Ret tt,
        set_pc (Some (with_localDescription (Some ("offer", "v=0 offer"))
                        answered_pc)) answered_manager,
        [Pc pc_createOffer; Pc (pc_setLocalDescription "offer" "v=0 offer");
         Send (envelope answered_manager "offer"
                 [("type", "offer"); ("sdp", "v=0 offer")])]).
Proof.
  assert (Hp : pc answered_manager = Some answered_pc) by reflexivity.
  assert (Hon : onnegotiationneeded answered_pc = true) by reflexivity.
  assert (Hws : ws_is_open answered_manager = true) by reflexivity.
  assert (Hoffer : createOffer_res (cooperative []) = Some "v=0 offer")
    by reflexivity.
  assert (Hlocal : setLocalDescription_ok (cooperative []) = true)
    by reflexivity.
  destruct (negotiation_needed_sends_offer answered_manager answered_pc
              (cooperative []) "v=0 offer" Hp) as [_ Hsend].
  split; [exact Hp |]. split; [exact Hon |]. split; [exact Hws |].
  split; [exact Hoffer |]. split; [exact Hlocal |].
  exact (Hsend Hon Hws Hoffer Hlocal).
Defined.

(** Every track event that carries a stream asks the server for a key
    frame: whatever the first stream is, exactly one [pli] envelope with an
    empty payload is sent.  Only the first stream of the event is looked
    at, and an event without a stream is logged and nothing else. *)
Theorem track_requests_keyframe (m : Manager) (stream : MediaStream)
    (rest : list MediaStream) :
  ws_is_open m = true ->
  sent (trace_of (handleTrack (stream :: rest) m)) = [envelope m "pli" []]
  /\ handleTrack (stream :: rest) m = handleTrack [stream] m
  /\ handleTrack [] m
     = (Ret tt, m, [Console log "Received remote track event: "]).
Proof.
  intros Hws. unfold handleTrack, envelope. cbn [lookup list_lookup].
  repeat split; mcases; settle.
Qed.

Lemma track_requests_keyframe_witness :
  ws_is_open joined_manager = true
  /\ sent (trace_of (handleTrack [remote_screen; peer_camera] joined_manager))
     = [envelope joined_manager "pli" []].
Proof.
  assert (Hws : ws_is_open joined_manager = true) by reflexivity.
  destruct (track_requests_keyframe joined_manager remote_screen
              [peer_camera] Hws) as (Hsent & _).
  split; [exact Hws |].
  exact Hsent.
Defined.

(** How a track event whose stream has no announced owner is classified:
    a stream whose id is a UUID is a participant and is handed to
    [onRemoteStream]; a stream whose id is no UUID and does not contain
    "screen" is reported with a warning; in both cases the manager's state
    stays as it was and no screen share is reported. *)
Theorem track_classification (m : Manager) (stream : MediaStream) :
  pendingScreenShareIds m !! stream_id stream = None ->
  (isValidUUID (stream_id stream) = true ->
   callbacks (trace_of (handleTrack [stream] m)) = [onRemoteStream stream]
   /\ state_of (handleTrack [stream] m) = m)
  /\ (isValidUUID (stream_id stream) = false ->
      includes (stream_id stream) "screen" = false ->
      callbacks (trace_of (handleTrack [stream] m)) = []
      /\ state_of (handleTrack [stream] m) = m
      /\ (Console warn "Received remote stream with unrecognized ID: "
          ∈ trace_of (handleTrack [stream] m))).
Proof.
  intros Hnone. unfold handleTrack. cbn [lookup list_lookup].
  repeat split; mcases; settle;
    repeat first [ apply list_elem_of_here | apply list_elem_of_further ].
Qed.

Lemma track_classification_witness :
  pendingScreenShareIds joined_manager !! stream_id peer_camera = None
  /\ isValidUUID (stream_id peer_camera) = true
  /\ callbacks (trace_of (handleTrack [peer_camera] joined_manager))
     = [onRemoteStream peer_camera].
Proof.
  assert (Hnone : pendingScreenShareIds joined_manager
                    !! stream_id peer_camera = None) by reflexivity.
  assert (Huuid : isValidUUID (stream_id peer_camera) = true)
    by reflexivity.
  destruct (track_classification joined_manager peer_camera Hnone)
    as [Hpeer _].
  split; [exact Hnone |]. split; [exact Huuid |].
  exact (proj1 (Hpeer Huuid)).
Defined.

(** ** Inbound messages that are no offer *)

(** Only an offer is answered: handling any other parsed message sends
    nothing, lets no exception out, and leaves [exited] and the socket as
    they were. *)
Theorem only_offers_are_answered (m : Manager) (msg : Inbound) (br : Browser) :
  (forall sdp, msg <> InOffer sdp) ->
  sent (trace_of (handleWsMessage (Some msg) br m)) = []
  /\ result_of (handleWsMessage (Some msg) br m) = Ret tt
  /\ exited (state_of (handleWsMessage (Some msg) br m)) = exited m
  /\ ws (state_of (handleWsMessage (Some msg) br m)) = ws m.
Proof.
  intros Hmsg. unfold handleWsMessage, wsMessage_switch.
  destruct msg; try (by destruct (Hmsg sdp)); repeat split; mcases.
Qed.

Lemma only_offers_are_answered_witness :
  (forall sdp, InAnswer "v=0 answer" <> InOffer sdp)
  /\ sent (trace_of (handleWsMessage (Some (InAnswer "v=0 answer"))
                       (cooperative []) joined_manager)) = [].
Proof.
  assert (Hmsg : forall sdp, InAnswer "v=0 answer" <> InOffer sdp)
    by (intros sdp H; discriminate H).
  destruct (only_offers_are_answered joined_manager (InAnswer "v=0 answer")
              (cooperative []) Hmsg) as (Hsent & _).
  split; [exact Hmsg |].
  exact Hsent.
Defined.

(** ** Sharing the own screen *)

(** What goes wrong in [startScreenShare] once a transceiver is stored.  A
    stream without a video track makes it throw a [TypeError] before
    anything is done.  When [replaceTrack] rejects, the rejection leaves
    the method: the stored transceiver was the one asked, nothing is sent
    and the state is unchanged.  When only [setParameters] fails, the
    failure is logged and swallowed: the degradation preference stays as it
    was and [screenShareRequest] is sent all the same. *)
Theorem startScreenShare_failures (m : Manager) (tr : TransceiverRef)
    (stream : MediaStream) (br : Browser) :
  screenShareVideoTransceiver m = Some tr ->
  (getVideoTracks stream !! 0%nat = None ->
   startScreenShare stream br m = (Throw TypeError, m, []))
  /\ (forall track : MediaStreamTrack,
        getVideoTracks stream !! 0%nat = Some track ->
        replaceTrack_ok br = false ->
        let r := startScreenShare stream br m in
        result_of r = Throw RtcError
        /\ state_of r = m
        /\ sent (trace_of r) = []
        /\ (replaced (trace_of r)).*1 = [tr])
  /\ (forall track : MediaStreamTrack,
        getVideoTracks stream !! 0%nat = Some track ->
        replaceTrack_ok br = true ->
        setParameters_ok br = false ->
        ws_is_open m = true ->
        let r := startScreenShare stream br m in
        result_of r = Ret tt
        /\ sent (trace_of r) = [envelope m "screenShareRequest" []]
        /\ degradationPreference <$> heap (state_of r) !! tr
           = degradationPreference <$> heap m !! tr
        /\ (Console log "Failed to get screen share encoding parameters"
            ∈ trace_of r)).
Proof.
  intros Htr. unfold startScreenShare, envelope. split; [| split].
  - intros Hnone. mcases.
  - intros track Htrack Hrej. repeat split; mcases.
  - intros track Htrack Hok Hpar Hws. repeat split; mcases; settle;
      try (repeat first [ apply list_elem_of_here
                         | apply list_elem_of_further ]; fail).
  all: rewrite list_lookup_alter_eq;
    match goal with
    | |- _ <$> (_ <$> ?a) = _ <$> ?b =>
        change a with b; destruct b; reflexivity
    end.
Qed.

Lemma startScreenShare_failures_witness :
  screenShareVideoTransceiver sharing_manager = Some 2%nat
  /\ getVideoTracks empty_display !! 0%nat = None
  /\ startScreenShare empty_display (cooperative []) sharing_manager
     = (Throw TypeError, sharing_manager, []).
Proof.
  assert (Htr : screenShareVideoTransceiver sharing_manager = Some 2%nat)
    by reflexivity.
  assert (Hnone : getVideoTracks empty_display !! 0%nat = None)
    by reflexivity.
  destruct (startScreenShare_failures sharing_manager 2%nat empty_display
              (cooperative []) Htr) as [Hthrow _].
  split; [exact Htr |]. split; [exact Hnone |].
  exact (Hthrow Hnone).
Defined.

(** ** The buffer of screen streams *)

Lemma step_screen_keyed (e : Event) (m : Manager) :
  screen_keyed m -> screen_keyed (state_of (step e m)).
Proof.
  intros Hk. destruct e; unfold_handlers.
  all: try (mcases; exact Hk).
  all: mcases; try exact Hk.
  all: unfold screen_keyed in *; cbn [pendingStreams]; intros k v Hkv; mred;
    split_lookups; simplify_eq; eauto.
Qed.

Lemma run_invariant (P : Manager -> Prop) :
  (forall e m, P m -> P (state_of (step e m))) ->
  forall es m, P m -> P (state_of (run es m)).
Proof.
  intros Hstep es. induction es as [| e es IH]; intros m Hm.
  - exact Hm.
  - rewrite run_cons. cbn [state_of fst snd]. by apply IH, Hstep.
Qed.

(** In every state a new manager can reach, each buffered stream sits under
    its own id, and that id contains "screen" and is no UUID.  So a
    [peerScreenShareStop], which looks up the id of a peer in the map of
    stream ids, never removes a buffered stream when peer ids are UUIDs. *)
Theorem only_screen_streams_are_buffered
    (room client user : string) (es : list Event) :
  let m := state_of (run es (new_RoomConnectionManager room client user)) in
  screen_keyed m
  /\ forall (id : string) (br : Browser),
       isValidUUID id = true ->
       pendingStreams
         (state_of (handleWsMessage (Some (InPeerScreenShareStop id)) br m))
       = pendingStreams m.
Proof.
  intros m.
  assert (Hk : screen_keyed m).
  { subst m. apply (run_invariant screen_keyed step_screen_keyed).
    intros k v Hkv. cbn in Hkv. by rewrite lookup_empty in Hkv. }
  split; [exact Hk |].
  intros id br Hid.
  unfold handleWsMessage, wsMessage_switch. mcases.
  match goal with
  | H : bool_decide (is_Some _) = true |- _ =>
      apply bool_decide_eq_true in H as [v Hv]
  end.
  destruct (Hk id v Hv) as (_ & _ & Hno). congruence.
Qed.

(** A stop that names the stream id, arriving before the share has been
    correlated, takes back the one fact that was buffered: after the track
    and the stop, or the announcement and the stop, both maps are as before
    and no callback has fired.  An announcement that arrives after such a
    stop is buffered again and waits for a track. *)
Theorem stopped_before_correlation
    (m : Manager) (stream : MediaStream) (owner : string) (br : Browser) :
  let s := stream_id stream in
  let track := PcTrack [stream] in
  let announcement := WsMessage (Some (InPeerScreenShare s owner)) br in
  let stop := WsMessage (Some (InPeerScreenShareStop s)) br in
  call_active m ->
  includes s "screen" = true ->
  pendingStreams m !! s = None ->
  pendingScreenShareIds m !! s = None ->
  (callbacks (trace_of (run [track; stop] m)) = []
   /\ pendingStreams (state_of (run [track; stop] m)) = pendingStreams m
   /\ pendingScreenShareIds (state_of (run [track; stop] m))
      = pendingScreenShareIds m)
  /\ (callbacks (trace_of (run [announcement; stop] m)) = []
      /\ pendingStreams (state_of (run [announcement; stop] m))
         = pendingStreams m
      /\ pendingScreenShareIds (state_of (run [announcement; stop] m))
         = pendingScreenShareIds m)
  /\ (callbacks (trace_of (run [track; stop; announcement] m)) = []
      /\ pendingScreenShareIds (state_of (run [track; stop; announcement] m))
           !! s = Some owner).
Proof.
  intros s track announcement stop [Ht Hw] Hscreen Hstreams Hids.
  subst s track announcement stop.
  pose proof (screen_id_not_uuid _ Hscreen) as Huuid.
  unfold call_active in *. cbn [run]. unfold_handlers.
  repeat split; mcases; cbn [lookup list_lookup] in *; simplify_eq; settle;
    settle_maps.
Qed.

Lemma stopped_before_correlation_witness :
  call_active joined_manager
  /\ includes (stream_id remote_screen) "screen" = true
  /\ pendingStreams joined_manager !! stream_id remote_screen = None
  /\ pendingScreenShareIds joined_manager !! stream_id remote_screen = None
  /\ callbacks
       (trace_of
          (run [PcTrack [remote_screen];
                WsMessage (Some (InPeerScreenShareStop
                                   (stream_id remote_screen)))
                  (cooperative [])] joined_manager)) = [].
Proof.
  assert (Hactive : call_active joined_manager) by (split; reflexivity).
  assert (Hscreen : includes (stream_id remote_screen) "screen" = true)
    by reflexivity.
  assert (Hstreams : pendingStreams joined_manager
                       !! stream_id remote_screen = None) by reflexivity.
  assert (Hids : pendingScreenShareIds joined_manager
                   !! stream_id remote_screen = None) by reflexivity.
  destruct (stopped_before_correlation joined_manager remote_screen "peer-2"
              (cooperative []) Hactive Hscreen Hstreams Hids)
    as ((Hcalls & _) & _).
  split; [exact Hactive |]. split; [exact Hscreen |].
  split; [exact Hstreams |]. split; [exact Hids |].
  exact Hcalls.
Defined.

(** ** The page: remote streams *)

Lemma map_has_spec (k : string) (l : RemoteStreams) : map_has k l = true <-> k ∈ l.*1.
Proof. unfold map_has. apply bool_decide_eq_true. Qed.

Lemma addRemoteStream_keyed (stream : MediaStream) (l : RemoteStreams) :
  streams_keyed l -> streams_keyed (addRemoteStream stream l).
Proof.
  intros [Hnd Hk]. unfold addRemoteStream, map_set.
  destruct (map_has (stream_id stream) l) eqn:Hhas; [done |].
  assert (Hnot : stream_id stream ∉ l.*1).
  { intros Hin. apply map_has_spec in Hin. congruence. }
  split.
  - rewrite fmap_app. apply NoDup_app. split; [done |]. split.
    + intros x Hx Hx'. cbn in Hx'. apply list_elem_of_singleton in Hx'. by subst.
    + cbn. apply NoDup_singleton.
  - apply Forall_app. split; [done |]. by constructor.
Qed.

Lemma map_delete_keyed (k : string) (l : RemoteStreams) :
  streams_keyed l -> streams_keyed (map_delete k l).
Proof.
  intros [Hnd Hk]. unfold map_delete. split.
  - apply (sublist_NoDup _ (l.*1)); [exact Hnd |].
    apply fmap_sublist, sublist_filter.
  - rewrite Forall_forall in Hk. apply Forall_forall. intros kv Hin.
    apply list_elem_of_filter in Hin as [_ Hin]. by apply Hk.
Qed.

Lemma map_get_delete (k : string) (l : RemoteStreams) :
  map_get k (map_delete k l) = None.
Proof.
  unfold map_delete, RemoteStreams in *.
  induction l as [| [k' v] l IH]; [done |].
  destruct (decide (k' <> k)) as [Hne | Heq].
  - rewrite filter_cons_True by done.
    cbn [map_get]. by rewrite bool_decide_eq_false_2.
  - by rewrite filter_cons_False.
Qed.

Lemma map_get_delete_ne (k k' : string) (l : RemoteStreams) :
  k' <> k -> map_get k' (map_delete k l) = map_get k' l.
Proof.
  intros Hne. unfold map_delete, RemoteStreams in *.
  induction l as [| [k2 v] l IH]; [done |].
  destruct (decide (k2 <> k)) as [H2 | H2].
  - rewrite filter_cons_True by done. cbn [map_get]. by rewrite IH.
  - rewrite filter_cons_False by done.
    apply dec_stable in H2. subst k2. cbn [map_get].
    rewrite bool_decide_eq_false_2; [exact IH | congruence].
Qed.

Lemma map_get_has (k : string) (l : RemoteStreams) :
  map_has k l = true <-> is_Some (map_get k l).
Proof.
  rewrite map_has_spec. induction l as [| [k' v] l IH].
  - cbn. split; [by intros ?%elem_of_nil | by intros [? ?]].
  - cbn [map_get fmap list_fmap fst]. rewrite elem_of_cons.
    destruct (bool_decide (k' = k)) eqn:Hk.
    + apply bool_decide_eq_true in Hk. split; [by eexists | by left].
    + apply bool_decide_eq_false in Hk. rewrite <- IH. split.
      * intros [-> | H]; [done | exact H].
      * by right.
Qed.

Lemma room_callback_keyed (c : Callback) (r : Room) :
  streams_keyed (remoteStreams r) ->
  streams_keyed (remoteStreams (room_callback c r).1).
Proof.
  intros Hk. destruct c; cbn; try done.
  - by apply addRemoteStream_keyed.
  - unfold removePeerStream. destruct (map_get peerId (remoteStreams r)); cbn;
      [by apply map_delete_keyed | done].
  - by destruct (feed_onPeerScreenShareStopped peerId (feed r)).
Qed.

Lemma room_callbacks_keyed (cs : list Callback) (r : Room) :
  streams_keyed (remoteStreams r) ->
  streams_keyed (remoteStreams (room_callbacks cs r).1).
Proof.
  revert r. induction cs as [| c cs IH]; intros r Hk; [done |].
  cbn [room_callbacks].
  pose proof (room_callback_keyed c r Hk) as H1.
  destruct (room_callback c r) as [r1 t1]. cbn [fst] in H1.
  specialize (IH r1 H1). by destruct (room_callbacks cs r1).
Qed.

Lemma page_event_keyed (e : Event) (p : Page) :
  streams_keyed (remoteStreams p.2) ->
  streams_keyed (remoteStreams (page (page_event e p)).2).
Proof.
  intros Hk. unfold page_event, with_manager.
  destruct (step e p.1) as [[res m] t].
  pose proof (room_callbacks_keyed (callbacks t) p.2 Hk) as H.
  by destruct (room_callbacks (callbacks t) p.2).
Qed.

(** Whatever events reach the page, the map of remote streams keeps one
    entry per id and every stream under its own id: no participant is shown
    twice. *)
Theorem remote_streams_stay_keyed (es : list Event) (p : Page) :
  streams_keyed (remoteStreams p.2) ->
  streams_keyed (remoteStreams (page (page_run es p)).2).
Proof.
  revert p. induction es as [| e es IH]; intros p Hk; [done |].
  cbn [page_run page]. apply IH. by apply page_event_keyed.
Qed.

Lemma remote_streams_stay_keyed_witness :
  streams_keyed []
  /\ streams_keyed
       (remoteStreams
          (page (page_run [PcTrack [peer_camera]; PcTrack [peer_camera]]
                   (joined_manager, mounted_room))).2).
Proof.
  assert (Hk : streams_keyed []) by (split; constructor).
  split; [exact Hk |].
  exact (remote_streams_stay_keyed
           [PcTrack [peer_camera]; PcTrack [peer_camera]]
           (joined_manager, mounted_room) Hk).
Defined.


(** ** The page and the manager together *)

Lemma callbacks_app (t1 t2 : list Effect) :
  callbacks (t1 ++ t2) = callbacks t1 ++ callbacks t2.
Proof. unfold callbacks. apply omap_app. Qed.

Lemma room_callbacks_app (cs1 cs2 : list Callback) (r : Room) :
  room_callbacks (cs1 ++ cs2) r
  = let '(r1, t1) := room_callbacks cs1 r in
    let '(r2, t2) := room_callbacks cs2 r1 in
    (r2, t1 ++ t2).
Proof.
  revert r. induction cs1 as [| c cs1 IH]; intros r.
  - cbn. by destruct (room_callbacks cs2 r).
  - cbn [app room_callbacks]. destruct (room_callback c r) as [r1 t1].
    rewrite IH. destruct (room_callbacks cs1 r1) as [r2 t2].
    destruct (room_callbacks cs2 r2) as [r3 t3]. by rewrite app_assoc.
Qed.

Lemma with_manager_eq (c : M unit) (m : Manager) (r : Room) :
  with_manager c (m, r)
  = {| page := (state_of (c m), (room_callbacks (callbacks (trace_of (c m))) r).1);
       manager_trace := trace_of (c m);
       room_trace := (room_callbacks (callbacks (trace_of (c m))) r).2 |}.
Proof.
  unfold with_manager. cbn [fst snd].
  destruct (c m) as [[res m1] t]. cbn [state_of trace_of fst snd].
  by destruct (room_callbacks (callbacks t) r).
Qed.

Lemma page_run_factors (es : list Event) (m : Manager) (r : Room) :
  page_run es (m, r) = with_manager (run es) (m, r).
Proof.
  revert m r. induction es as [| e es IH]; intros m r.
  - reflexivity.
  - cbn [page_run]. unfold page_event. rewrite !with_manager_eq.
    cbn [page manager_trace room_trace]. rewrite IH, with_manager_eq.
    cbn [page manager_trace room_trace]. rewrite run_cons.
    cbn [state_of trace_of fst snd]. rewrite callbacks_app, room_callbacks_app.
    destruct (room_callbacks (callbacks (trace_of (step e m))) r) as [r1 t1].
    cbn [fst snd].
    by destruct (room_callbacks _ r1).
Qed.

Lemma participant_track (m : Manager) (stream : MediaStream)
    (rest : list MediaStream) :
  installed ontrack m = true ->
  isValidUUID (stream_id stream) = true ->
  pendingScreenShareIds m !! stream_id stream = None ->
  state_of (step (PcTrack (stream :: rest)) m) = m
  /\ callbacks (trace_of (step (PcTrack (stream :: rest)) m))
     = [onRemoteStream stream].
Proof.
  intros Hon Huuid Hpend. unfold_handlers. cbn [lookup list_lookup].
  split; mcases; settle.
Qed.

Lemma peer_exit_step (m : Manager) (peerId peerName : string) (br : Browser) :
  is_Some (pc m) ->
  onmessage <$> ws m = Some HandleWsMessage ->
  state_of (step (WsMessage (Some (InPeerExit peerId peerName)) br) m) = m
  /\ callbacks
       (trace_of (step (WsMessage (Some (InPeerExit peerId peerName)) br) m))
     = [onPeerExit peerId peerName; onRemoteStreamStopped].
Proof.
  intros [p Hp] Hws. unfold_handlers. split; mcases; settle.
Qed.

(** A participant's stream arrives with one track event per track.  The
    first event for a participant that is not shown yet appends the stream
    to the map of remote streams; a later event with the same stream id
    changes nothing on the page, and neither event stops or announces
    anything. *)
Theorem repeated_track_shows_one_tile
    (m : Manager) (r : Room) (stream again : MediaStream)
    (rest rest' : list MediaStream) :
  installed ontrack m = true ->
  isValidUUID (stream_id stream) = true ->
  stream_id again = stream_id stream ->
  pendingScreenShareIds m !! stream_id stream = None ->
  map_get (stream_id stream) (remoteStreams r) = None ->
  let o1 := page_event (PcTrack (stream :: rest)) (m, r) in
  let o2 := page_event (PcTrack (again :: rest')) (page o1) in
  remoteStreams (page o1).2 = remoteStreams r ++ [(stream_id stream, stream)]
  /\ page o2 = page o1
  /\ room_trace o1 = [] /\ room_trace o2 = [].
Proof.
  intros Hon Huuid Hid Hpend Hnew. unfold page_event.
  destruct (participant_track m stream rest Hon Huuid Hpend) as [Hs1 Hc1].
  assert (Huuid' : isValidUUID (stream_id again) = true) by by rewrite Hid.
  assert (Hpend' : pendingScreenShareIds m !! stream_id again = None)
    by by rewrite Hid.
  destruct (participant_track m again rest' Hon Huuid' Hpend') as [Hs2 Hc2].
  cbn zeta. rewrite with_manager_eq, Hs1, Hc1. room_red.
  rewrite with_manager_eq, Hs2, Hc2. room_red.
  assert (Hadd : addRemoteStream stream (remoteStreams r)
                 = remoteStreams r ++ [(stream_id stream, stream)]).
  { unfold addRemoteStream, map_set.
    destruct (map_has (stream_id stream) (remoteStreams r)) eqn:Hhas; [| done].
    apply map_get_has in Hhas as [x Hx]. congruence. }
  rewrite !Hadd.
  assert (Hagain : addRemoteStream again
                     (remoteStreams r ++ [(stream_id stream, stream)])
                   = remoteStreams r ++ [(stream_id stream, stream)]).
  { unfold addRemoteStream.
    rewrite (proj2 (map_has_spec _ _)); [done |].
    rewrite fmap_app, Hid. apply elem_of_app. right.
    cbn. apply list_elem_of_here. }
  rewrite Hagain. by repeat split.
Qed.

Lemma repeated_track_shows_one_tile_witness :
  installed ontrack joined_manager = true
  /\ isValidUUID (stream_id peer_camera) = true
  /\ pendingScreenShareIds joined_manager !! stream_id peer_camera = None
  /\ map_get (stream_id peer_camera) (remoteStreams mounted_room) = None
  /\ remoteStreams
       (page (page_event (PcTrack [peer_camera])
                (joined_manager, mounted_room))).2
     = remoteStreams mounted_room ++ [(stream_id peer_camera, peer_camera)].
Proof.
  assert (Hon : installed ontrack joined_manager = true) by reflexivity.
  assert (Huuid : isValidUUID (stream_id peer_camera) = true)
    by reflexivity.
  assert (Hpend : pendingScreenShareIds joined_manager
                    !! stream_id peer_camera = None) by reflexivity.
  assert (Hnew : map_get (stream_id peer_camera) (remoteStreams mounted_room)
                 = None) by reflexivity.
  destruct (repeated_track_shows_one_tile joined_manager mounted_room
              peer_camera peer_camera [] [] Hon Huuid eq_refl Hpend Hnew)
    as (Hshown & _).
  split; [exact Hon |]. split; [exact Huuid |]. split; [exact Hpend |].
  split; [exact Hnew |].
  exact Hshown.
Defined.


(** When a participant that is shown leaves, its stream is stopped and
    removed, the others stay, and the page says who left.  A second
    [peerExit] for the same participant finds no stream: it logs an error
    and changes nothing. *)
Theorem peer_exit_removes_one_stream
    (m : Manager) (r : Room) (peerId peerName : string) (stream : MediaStream)
    (br br' : Browser) :
  is_Some (pc m) ->
  onmessage <$> ws m = Some HandleWsMessage ->
  map_get peerId (remoteStreams r) = Some stream ->
  let o1 := page_event (WsMessage (Some (InPeerExit peerId peerName)) br)
              (m, r) in
  let o2 := page_event (WsMessage (Some (InPeerExit peerId peerName)) br')
              (page o1) in
  room_trace o1
  = [feed_effect (stop_tracks stream);
     feed_effect (toast (peerName +:+ " has left the room"))]
  /\ map_get peerId (remoteStreams (page o1).2) = None
  /\ (forall other : string,
        other <> peerId ->
        map_get other (remoteStreams (page o1).2)
        = map_get other (remoteStreams r))
  /\ page o2 = page o1
  /\ room_trace o2
     = [feed_effect
          (feed_console_error
             ("Stream does not exist for peer " +:+ peerName
              +:+ " with id " +:+ peerId))].
Proof.
  intros Hpc Hws Hget. unfold page_event.
  destruct (peer_exit_step m peerId peerName br Hpc Hws) as [Hs1 Hc1].
  destruct (peer_exit_step m peerId peerName br' Hpc Hws) as [Hs2 Hc2].
  set (remaining := set_remoteStreams (map_delete peerId (remoteStreams r)) r).
  assert (H1 : room_callbacks [onPeerExit peerId peerName; onRemoteStreamStopped] r
               = (remaining,
                  [feed_effect (stop_tracks stream);
                   feed_effect (toast (peerName +:+ " has left the room"))])).
  { cbn [room_callbacks room_callback]. unfold removePeerStream.
    by rewrite Hget. }
  assert (H2 : room_callbacks [onPeerExit peerId peerName; onRemoteStreamStopped]
                 remaining
               = (remaining,
                  [feed_effect
                     (feed_console_error
                        ("Stream does not exist for peer " +:+ peerName
                         +:+ " with id " +:+ peerId))])).
  { cbn [room_callbacks room_callback]. unfold removePeerStream.
    subst remaining. cbn [remoteStreams set_remoteStreams].
    rewrite map_get_delete. by destruct r. }
  cbn zeta. rewrite with_manager_eq, Hs1, Hc1, H1. cbn [page fst snd room_trace].
  rewrite with_manager_eq, Hs2, Hc2, H2. cbn [page fst snd room_trace].
  subst remaining. cbn [remoteStreams set_remoteStreams].
  repeat split; try apply map_get_delete.
  intros other Hne. by apply map_get_delete_ne.
Qed.

Lemma peer_exit_removes_one_stream_witness :
  is_Some (pc joined_manager)
  /\ onmessage <$> ws joined_manager = Some HandleWsMessage
  /\ map_get (stream_id peer_camera) (remoteStreams room_with_peer)
     = Some peer_camera
  /\ room_trace
       (page_event
          (WsMessage (Some (InPeerExit (stream_id peer_camera) "bob"))
             (cooperative []))
          (joined_manager, room_with_peer))
     = [feed_effect (stop_tracks peer_camera);
        feed_effect (toast ("bob" +:+ " has left the room"))].
Proof.
  assert (Hpc : is_Some (pc joined_manager)) by (eexists; reflexivity).
  assert (Hws : onmessage <$> ws joined_manager = Some HandleWsMessage)
    by reflexivity.
  assert (Hget : map_get (stream_id peer_camera) (remoteStreams room_with_peer)
                 = Some peer_camera) by reflexivity.
  destruct (peer_exit_removes_one_stream joined_manager room_with_peer
              (stream_id peer_camera) "bob" peer_camera (cooperative [])
              (cooperative []) Hpc Hws Hget) as (Htrace & _).
  split; [exact Hpc |]. split; [exact Hws |]. split; [exact Hget |].
  exact Htrace.
Defined.


Lemma remote_share_events
    (m : Manager) (stream : MediaStream) (owner : string) (br br' : Browser) :
  call_active m ->
  includes (stream_id stream) "screen" = true ->
  pendingStreams m !! stream_id stream = None ->
  pendingScreenShareIds m !! stream_id stream = None ->
  pendingStreams m !! owner = None ->
  pendingScreenShareIds m !! owner = None ->
  let es := [PcTrack [stream];
             WsMessage (Some (InPeerScreenShare (stream_id stream) owner)) br;
             WsMessage (Some (InPeerScreenShareStop owner)) br'] in
  callbacks (trace_of (run es m))
  = [onPeerScreenShare owner stream; onPeerScreenShareStopped owner]
  /\ pendingStreams (state_of (run es m)) = pendingStreams m
  /\ pendingScreenShareIds (state_of (run es m)) = pendingScreenShareIds m.
Proof.
  intros [Hon Hws] Hscreen Hps Hpi Hos Hoi.
  pose proof (screen_id_not_uuid _ Hscreen) as Hnot.
  cbn [run]. unfold_handlers.
  repeat split; mcases; cbn [lookup list_lookup] in *; simplify_eq; settle;
    restore_maps; settle_maps.
Qed.

(** A remote screen share from start to end, on the page: the screen
    stream arrives, its owner is announced, and the owner's stop arrives,
    the owner's id being a key of neither pending map.  The page announces
    the start (stopping a share that was on display), announces the stop
    and stops the tracks of the screen stream; afterwards no share is on
    display, the layout override is off, the participants' streams are
    untouched and both pending maps are as before. *)
Theorem remote_share_round_trip
    (m : Manager) (r : Room) (stream : MediaStream) (owner : string)
    (br br' : Browser) :
  call_active m ->
  includes (stream_id stream) "screen" = true ->
  pendingStreams m !! stream_id stream = None ->
  pendingScreenShareIds m !! stream_id stream = None ->
  pendingStreams m !! owner = None ->
  pendingScreenShareIds m !! owner = None ->
  let o := page_run
             [PcTrack [stream];
              WsMessage (Some (InPeerScreenShare (stream_id stream) owner)) br;
              WsMessage (Some (InPeerScreenShareStop owner)) br']
             (m, r) in
  feed (page o).2 = mounted_feed
  /\ room_trace o
     = [feed_effect (toast (owner +:+ " has started screen sharing"))]
       ++ stop_if_present (share_stream <$> screenShare (feed r))
       ++ [feed_effect (toast (owner +:+ " has stopped screen sharing"));
           feed_effect (stop_tracks stream)]
  /\ remoteStreams (page o).2 = remoteStreams r
  /\ pendingStreams (page o).1 = pendingStreams m
  /\ pendingScreenShareIds (page o).1 = pendingScreenShareIds m.
Proof.
  intros Hactive Hscreen Hps Hpi Hos Hoi.
  destruct (remote_share_events m stream owner br br'
              Hactive Hscreen Hps Hpi Hos Hoi) as (Hc & Hs1 & Hs2).
  cbn zeta. rewrite page_run_factors, with_manager_eq, Hc.
  cbn [page fst snd room_trace]. rewrite Hs1, Hs2.
  cbn [room_callbacks room_callback feed_callback].
  unfold feed_onPeerScreenShare, feed_onPeerScreenShareStopped.
  room_red. rewrite bool_decide_eq_false_2 by (intros H; by apply H).
  room_red. unfold mounted_feed.
  repeat split. by destruct (screenShare (feed r)).
Qed.

Lemma remote_share_round_trip_witness :
  call_active joined_manager
  /\ includes (stream_id remote_screen) "screen" = true
  /\ pendingStreams joined_manager !! stream_id remote_screen = None
  /\ pendingScreenShareIds joined_manager !! stream_id remote_screen = None
  /\ pendingStreams joined_manager !! "peer-2" = None
  /\ pendingScreenShareIds joined_manager !! "peer-2" = None
  /\ feed
       (page
          (page_run
             [PcTrack [remote_screen];
              WsMessage (Some (InPeerScreenShare (stream_id remote_screen)
                                 "peer-2")) (cooperative []);
              WsMessage (Some (InPeerScreenShareStop "peer-2"))
                (cooperative [])]
             (joined_manager, mounted_room))).2
     = mounted_feed.
Proof.
  assert (Hactive : call_active joined_manager) by (split; reflexivity).
  assert (Hscreen : includes (stream_id remote_screen) "screen" = true)
    by reflexivity.
  assert (Hps : pendingStreams joined_manager !! stream_id remote_screen
                = None) by reflexivity.
  assert (Hpi : pendingScreenShareIds joined_manager
                  !! stream_id remote_screen = None) by reflexivity.
  assert (Hos : pendingStreams joined_manager !! "peer-2" = None)
    by reflexivity.
  assert (Hoi : pendingScreenShareIds joined_manager !! "peer-2" = None)
    by reflexivity.
  destruct (remote_share_round_trip joined_manager mounted_room remote_screen
              "peer-2" (cooperative []) (cooperative [])
              Hactive Hscreen Hps Hpi Hos Hoi) as (Hfeed & _).
  split; [exact Hactive |]. split; [exact Hscreen |]. split; [exact Hps |].
  split; [exact Hpi |]. split; [exact Hos |]. split; [exact Hoi |].
  exact Hfeed.
Defined.

















Lemma connection_state_callbacks (m : Manager) (cs : ConnectionState) :
  installed onconnectionstatechange m = true ->
  exited m = false ->
  callbacks (trace_of (step (PcConnectionStateChange cs) m))
  = match cs with
    | cs_new | cs_connecting => []
    | cs_connected => [onStatusChange st_active]
    | cs_disconnected | cs_failed | cs_closed =>
        [onStatusChange st_inactive; onRemoteStreamStopped]
    end.
Proof.
  intros Hon Hex. unfold_handlers. destruct cs; mcases.
Qed.

(** The status on the page follows the peer connection: "connected" makes
    it active; "disconnected", "failed" and "closed" make it inactive;
    "new" and "connecting" leave it.  None of them removes or stops a
    remote stream, the local stream or the share on display. *)
Theorem call_status_follows_connection
    (m : Manager) (r : Room) (cs : ConnectionState) :
  installed onconnectionstatechange m = true ->
  exited m = false ->
  let o := page_event (PcConnectionStateChange cs) (m, r) in
  callStatus (page o).2
  = match cs with
    | cs_new | cs_connecting => callStatus r
    | cs_connected => fs_active
    | cs_disconnected | cs_failed | cs_closed => fs_inactive
    end
  /\ remoteStreams (page o).2 = remoteStreams r
  /\ localStream (page o).2 = localStream r
  /\ feed (page o).2 = feed r
  /\ room_trace o = [].
Proof.
  intros Hon Hex. cbn zeta. unfold page_event. rewrite with_manager_eq.
  cbn [page fst snd room_trace].
  rewrite (connection_state_callbacks m cs Hon Hex).
  by destruct cs.
Qed.

Lemma call_status_follows_connection_witness :
  installed onconnectionstatechange joined_manager = true
  /\ exited joined_manager = false
  /\ callStatus
       (page (page_event (PcConnectionStateChange cs_failed)
                (joined_manager, room_with_peer))).2
     = fs_inactive
  /\ remoteStreams
       (page (page_event (PcConnectionStateChange cs_failed)
                (joined_manager, room_with_peer))).2
     = remoteStreams room_with_peer.
Proof.
  assert (Hon : installed onconnectionstatechange joined_manager = true)
    by reflexivity.
  assert (Hex : exited joined_manager = false) by reflexivity.
  destruct (call_status_follows_connection joined_manager room_with_peer
              cs_failed Hon Hex) as (Hstatus & Hstreams & _).
  split; [exact Hon |]. split; [exact Hex |].
  split; [exact Hstatus | exact Hstreams].
Defined.

